(** * Ashida ESS: the attendance calendar

    A shallow embedding of the attendance calendar component
    ([AttendanceCalendar], src/unnamed/part_003; the same functions appear
    again in src/unnamed/part_002): the status reconciler
    [processAttendanceData], the month loader [fetchMonthlyRecords], the
    edit-window gate [isWithinLast7Days] with [handleDayClick], the entry
    submitter [handleSubmitEntry] and the grid builder [renderCalendarGrid].

    The component is TypeScript on a JavaScript runtime, so the file starts
    with the two pieces of the language the functions lean on: strings
    ([JsString]) and the [Date] object ([JsDate]). *)

From Stdlib Require Import ZArith List Bool Ascii String Lia DecimalString.
From stdpp Require Import base gmap strings list.

Local Open Scope Z_scope.

(** ** JavaScript strings

    A JavaScript string is a sequence of UTF-16 code units. The strings of
    this component (date keys, time stamps, status words, the text of the
    time field) are modelled by Rocq's [string], one character per code unit
    in the range 0..255; on that range the character classes below are the
    ones of ECMAScript. *)
Module JsString.

Definition codeUnit (c : ascii) : Z := Z.of_N (N_of_ascii c).

(** [\d] *)
Definition isDigit (c : ascii) : bool :=
  (48 <=? codeUnit c) && (codeUnit c <=? 57).

(** [\s]: TAB, LF, VT, FF, CR, SPACE and NO-BREAK SPACE. *)
Definition isWhiteSpace (c : ascii) : bool :=
  ((9 <=? codeUnit c) && (codeUnit c <=? 13))
  || (codeUnit c =? 32) || (codeUnit c =? 160).

Definition digitValue (c : ascii) : Z := codeUnit c - 48.

Definition shiftChar (c : ascii) (k : Z) : ascii :=
  ascii_of_N (Z.to_N (codeUnit c + k)).

(** [String.prototype.toLowerCase], one code unit at a time: the capital
    letters A..Z and the capital letters of the upper half (0xC0..0xDE
    without the multiplication sign 0xD7). *)
Definition toLowerChar (c : ascii) : ascii :=
  let n := codeUnit c in
  if ((65 <=? n) && (n <=? 90))
     || ((192 <=? n) && (n <=? 222) && negb (n =? 215))
  then shiftChar c 32 else c.

Fixpoint toLowerCase (s : string) : string :=
  match s with
  | EmptyString => EmptyString
  | String c r => String (toLowerChar c) (toLowerCase r)
  end.

(** [toUpperCase] on the letters a..z; the component applies it to the
    third capture of the time pattern only, which holds two letters. *)
Definition toUpperChar (c : ascii) : ascii :=
  let n := codeUnit c in
  if (97 <=? n) && (n <=? 122) then shiftChar c (-32) else c.

Fixpoint toUpperCase (s : string) : string :=
  match s with
  | EmptyString => EmptyString
  | String c r => String (toUpperChar c) (toUpperCase r)
  end.

(** [s.replace(/\s+/g, '_')]: every maximal run of white space becomes one
    underscore. [inRun] tells that the previous character was white
    space, so that the run already has its underscore. *)
Fixpoint replaceWhiteSpaceRuns (inRun : bool) (s : string) : string :=
  match s with
  | EmptyString => EmptyString
  | String c r =>
      if isWhiteSpace c
      then if inRun then replaceWhiteSpaceRuns true r
           else String "_" (replaceWhiteSpaceRuns true r)
      else String c (replaceWhiteSpaceRuns false r)
  end.

(** [String(n)] for an integer [n]. *)
Definition ofInt (n : Z) : string := NilZero.string_of_int (Z.to_int n).

Fixpoint replicate (n : nat) (c : ascii) : string :=
  match n with
  | O => EmptyString
  | S k => String c (replicate k c)
  end.

(** [s.padStart(w, '0')] *)
Definition padStart (w : nat) (s : string) : string :=
  replicate (w - String.length s) "0" +:+ s.

(** [parseInt(s, 10)] on a string of decimal digits. *)
Fixpoint parseDigits (acc : Z) (s : string) : Z :=
  match s with
  | EmptyString => acc
  | String c r => parseDigits (10 * acc + digitValue c) r
  end.

Definition parseInt (s : string) : Z := parseDigits 0 s.

Fixpoint allDigits (s : string) : bool :=
  match s with
  | EmptyString => true
  | String c r => isDigit c && allDigits r
  end.

(** [s.split(sep)[0]]: the text before the first [sep]. *)
Fixpoint beforeFirst (sep : ascii) (s : string) : string :=
  match s with
  | EmptyString => EmptyString
  | String c r => if Ascii.eqb c sep then EmptyString
                  else String c (beforeFirst sep r)
  end.

(** A value is falsy as a string when it is the empty string. *)
Definition truthy (s : string) : bool := negb (String.eqb s "").

End JsString.

(** ** The Date object

    Time values are milliseconds since the epoch, as in ECMAScript
    (section "Date Objects"); the abstract operations keep their names. An
    invalid date (time value NaN) is [None]. The host's time zone is a fixed
    offset [tza] from UTC in milliseconds (LocalTZA), positive east of
    Greenwich; daylight saving is not modelled, and neither is the range
    check TimeClip, which only excludes years beyond +-275760. *)
Module JsDate.

Definition msPerDay : Z := 86400000.
Definition msPerHour : Z := 3600000.
Definition msPerMinute : Z := 60000.
Definition msPerSecond : Z := 1000.

Definition Day (t : Z) : Z := t / msPerDay.
Definition TimeWithinDay (t : Z) : Z := t mod msPerDay.

Definition DaysInYear (y : Z) : Z :=
  if negb (y mod 4 =? 0) then 365
  else if negb (y mod 100 =? 0) then 366
  else if negb (y mod 400 =? 0) then 365
  else 366.

Definition DayFromYear (y : Z) : Z :=
  365 * (y - 1970) + (y - 1969) / 4 - (y - 1901) / 100 + (y - 1601) / 400.

Definition TimeFromYear (y : Z) : Z := msPerDay * DayFromYear y.

(** The largest year [y] with [TimeFromYear y <= t]: an estimate from the
    mean length of a year, corrected by at most one. *)
Definition YearFromTime (t : Z) : Z :=
  let d := Day t in
  let y := 1970 + (400 * d) / 146097 in
  if DayFromYear (y + 1) <=? d then y + 1
  else if DayFromYear y <=? d then y
  else y - 1.

Definition InLeapYear (t : Z) : Z :=
  if DaysInYear (YearFromTime t) =? 366 then 1 else 0.

Definition DayWithinYear (t : Z) : Z := Day t - DayFromYear (YearFromTime t).

Definition MonthFromTime (t : Z) : Z :=
  let d := DayWithinYear t in
  let l := InLeapYear t in
  if d <? 31 then 0
  else if d <? 59 + l then 1
  else if d <? 90 + l then 2
  else if d <? 120 + l then 3
  else if d <? 151 + l then 4
  else if d <? 181 + l then 5
  else if d <? 212 + l then 6
  else if d <? 243 + l then 7
  else if d <? 273 + l then 8
  else if d <? 304 + l then 9
  else if d <? 334 + l then 10
  else 11.

Definition DateFromTime (t : Z) : Z :=
  let d := DayWithinYear t in
  let l := InLeapYear t in
  match MonthFromTime t with
  | 0 => d + 1
  | 1 => d - 30
  | 2 => d - 58 - l
  | 3 => d - 89 - l
  | 4 => d - 119 - l
  | 5 => d - 150 - l
  | 6 => d - 180 - l
  | 7 => d - 211 - l
  | 8 => d - 242 - l
  | 9 => d - 272 - l
  | 10 => d - 303 - l
  | _ => d - 333 - l
  end.

Definition WeekDay (t : Z) : Z := (Day t + 4) mod 7.

Definition HourFromTime (t : Z) : Z := (t / msPerHour) mod 24.
Definition MinFromTime (t : Z) : Z := (t / msPerMinute) mod 60.
Definition SecFromTime (t : Z) : Z := (t / msPerSecond) mod 60.
Definition msFromTime (t : Z) : Z := t mod msPerSecond.

Definition MakeTime (h m s ms : Z) : Z :=
  h * msPerHour + m * msPerMinute + s * msPerSecond + ms.

(** Days from the start of year [y] to the start of its month [mn]
    (0..11). *)
Definition monthStart (y mn : Z) : Z :=
  let l := if DaysInYear y =? 366 then 1 else 0 in
  match mn with
  | 0 => 0
  | 1 => 31
  | 2 => 59 + l
  | 3 => 90 + l
  | 4 => 120 + l
  | 5 => 151 + l
  | 6 => 181 + l
  | 7 => 212 + l
  | 8 => 243 + l
  | 9 => 273 + l
  | 10 => 304 + l
  | _ => 334 + l
  end.

(** [MakeDay]: months outside 0..11 carry into the year and days outside
    the month carry into the neighbouring months. *)
Definition MakeDay (year month date : Z) : Z :=
  let ym := year + month / 12 in
  let mn := month mod 12 in
  DayFromYear ym + monthStart ym mn + date - 1.

Definition MakeDate (day time : Z) : Z := day * msPerDay + time.

Definition LocalTime (tza t : Z) : Z := t + tza.
Definition UTC (tza t : Z) : Z := t - tza.

(** A Date object: its time value, or [None] for an invalid date. *)
Definition Date : Type := option Z.

(** [new Date(year, month, date)], a local time. *)
Definition ofComponents (tza year month date : Z) : Z :=
  let yr := if (0 <=? year) && (year <=? 99) then 1900 + year else year in
  UTC tza (MakeDate (MakeDay yr month date) (MakeTime 0 0 0 0)).

Definition getFullYear (tza t : Z) : Z := YearFromTime (LocalTime tza t).
Definition getMonth (tza t : Z) : Z := MonthFromTime (LocalTime tza t).
Definition getDate (tza t : Z) : Z := DateFromTime (LocalTime tza t).
Definition getDay (tza t : Z) : Z := WeekDay (LocalTime tza t).
Definition getHours (tza t : Z) : Z := HourFromTime (LocalTime tza t).
Definition getMinutes (tza t : Z) : Z := MinFromTime (LocalTime tza t).

(** [d.setHours(0, 0, 0, 0)] *)
Definition setHoursZero (tza : Z) (d : Date) : Date :=
  match d with
  | None => None
  | Some t =>
      Some (UTC tza (MakeDate (Day (LocalTime tza t)) (MakeTime 0 0 0 0)))
  end.

(** [d.setDate(dt)] *)
Definition setDate (tza : Z) (d : Date) (dt : Z) : Date :=
  match d with
  | None => None
  | Some t =>
      let lt := LocalTime tza t in
      Some (UTC tza (MakeDate (MakeDay (YearFromTime lt) (MonthFromTime lt) dt)
                              (TimeWithinDay lt)))
  end.

(** *** Parsing and printing

    [new Date(text)] for the two shapes of text the component passes:
    a date key [YYYY-MM-DD], which ECMAScript reads as midnight UTC, and a
    time stamp [YYYY-MM-DD HH:MM:SS] (the backend's format; a [T] may
    stand for the blank and a fraction of a second may follow), which is
    read as local time. Any other text gives an invalid date here; texts
    an engine may read besides these (a time without seconds, a zone
    suffix, hour 24) do not come from the backend and are outside the
    model. Day numbers 1..31 are accepted in every month and carried over
    by [MakeDay]. *)
Fixpoint takeDigits (n : nat) (acc : Z) (s : string) : option (Z * string) :=
  match n with
  | O => Some (acc, s)
  | S k =>
      match s with
      | String c r =>
          if JsString.isDigit c
          then takeDigits k (10 * acc + JsString.digitValue c) r
          else None
      | EmptyString => None
      end
  end.

Definition expect (c : ascii) (s : string) : option string :=
  match s with
  | String c' r => if Ascii.eqb c c' then Some r else None
  | EmptyString => None
  end.

Definition parseDateFields (s : string) : option (Z * Z * Z * string) :=
  '(y, s1) ← takeDigits 4 0 s;
  s2 ← expect "-" s1;
  '(m, s3) ← takeDigits 2 0 s2;
  s4 ← expect "-" s3;
  '(d, s5) ← takeDigits 2 0 s4;
  if (1 <=? m) && (m <=? 12) && (1 <=? d) && (d <=? 31)
  then Some (y, m, d, s5) else None.

(** The first three digits of a fraction of a second, as milliseconds. *)
Definition parseFraction (s : string) : option Z :=
  match s with
  | EmptyString => Some 0
  | String "." f =>
      if JsString.allDigits f && negb (String.eqb f "")
      then Some (JsString.parseInt
                   (String.substring 0 3 (f +:+ "00")))
      else None
  | _ => None
  end.

Definition parseTimeFields (s : string) : option Z :=
  '(h, s1) ← takeDigits 2 0 s;
  s2 ← expect ":" s1;
  '(mi, s3) ← takeDigits 2 0 s2;
  s4 ← expect ":" s3;
  '(sec, s5) ← takeDigits 2 0 s4;
  ms ← parseFraction s5;
  if (h <=? 23) && (mi <=? 59) && (sec <=? 59)
  then Some (MakeTime h mi sec ms) else None.

Definition parse (tza : Z) (s : string) : Date :=
  '(y, m, d, rest) ← parseDateFields s;
  match rest with
  | EmptyString => Some (MakeDate (MakeDay y (m - 1) d) 0)
  | String sep r =>
      if Ascii.eqb sep " " || Ascii.eqb sep "T"
      then tm ← parseTimeFields r;
           Some (UTC tza (MakeDate (MakeDay y (m - 1) d) tm))
      else None
  end.

Definition pad (w : nat) (n : Z) : string :=
  JsString.padStart w (JsString.ofInt n).

(** [d.toISOString()], always in UTC. *)
Definition toISOString (t : Z) : string :=
  let y := YearFromTime t in
  let year :=
    if (0 <=? y) && (y <=? 9999) then pad 4 y
    else (if y <? 0 then "-" else "+") +:+ pad 6 (Z.abs y) in
  year +:+ "-" +:+ pad 2 (MonthFromTime t + 1) +:+ "-"
    +:+ pad 2 (DateFromTime t) +:+ "T" +:+ pad 2 (HourFromTime t) +:+ ":"
    +:+ pad 2 (MinFromTime t) +:+ ":" +:+ pad 2 (SecFromTime t) +:+ "."
    +:+ pad 3 (msFromTime t) +:+ "Z".

(** The local date key the component prints in several places:
    [`${y}-${String(m + 1).padStart(2, '0')}-${String(d).padStart(2, '0')}`]
    with [m] a month index 0..11. *)
Definition dateKeyOf (year month day : Z) : string :=
  JsString.ofInt year +:+ "-" +:+ pad 2 (month + 1) +:+ "-" +:+ pad 2 day.

End JsDate.

(** ** Data model (the interfaces at the top of the component) *)

Inductive LogType : Type := IN | OUT.

Definition logTypeText (l : LogType) : string :=
  match l with IN => "IN" | OUT => "OUT" end.

(** [DayData.status] *)
Inductive Status : Type :=
| present | incomplete | absent | on_leave | half_day | work_from_home.

Global Instance Status_eq_dec : EqDecision Status.
Proof. solve_decision. Defined.

(** A field that holds a string, [null] or [undefined]. *)
Inductive Nullable : Type :=
| JsNull
| JsUndefined
| JsStr (s : string).

Definition truthyN (v : Nullable) : bool :=
  match v with
  | JsStr s => JsString.truthy s
  | _ => false
  end.

(** [EmployeeCheckin], of which the component reads [time] and
    [log_type]. A missing [time] is [None]. *)
Record EmployeeCheckin : Type := {
  time : option string;
  log_type : string;
}.

(** [Attendance]; [att_status] is its field [status] (the name [status] is
    kept for [DayData]). Fields the backend left out are [None]. *)
Record Attendance : Type := {
  attendance_date : option string;
  att_status : option string;
}.

Record DayData : Type := {
  date : string;
  checkIns : list string;
  checkOuts : list string;
  status : Status;
  attendanceStatus : Nullable;
  isWFH : bool;
  isOD : bool;
}.

Definition set_status (s : Status) (d : DayData) : DayData :=
  {| date := date d; checkIns := checkIns d; checkOuts := checkOuts d;
     status := s; attendanceStatus := attendanceStatus d;
     isWFH := isWFH d; isOD := isOD d |}.

Definition set_attendanceStatus (a : Nullable) (d : DayData) : DayData :=
  {| date := date d; checkIns := checkIns d; checkOuts := checkOuts d;
     status := status d; attendanceStatus := a;
     isWFH := isWFH d; isOD := isOD d |}.

Definition push_checkIn (t : string) (d : DayData) : DayData :=
  {| date := date d; checkIns := checkIns d ++ [t]; checkOuts := checkOuts d;
     status := status d; attendanceStatus := attendanceStatus d;
     isWFH := isWFH d; isOD := isOD d |}.

Definition push_checkOut (t : string) (d : DayData) : DayData :=
  {| date := date d; checkIns := checkIns d; checkOuts := checkOuts d ++ [t];
     status := status d; attendanceStatus := attendanceStatus d;
     isWFH := isWFH d; isOD := isOD d |}.

(** [ProcessedData]: an object used as a map from date key to [DayData]. *)
Abbreviation ProcessedData := (gmap string DayData).

(** ** The status reconciler: [processAttendanceData] *)
Section Reconciler.

(** The host's offset from UTC and the two sets of dates covered by
    approved applications. *)
Variable tza : Z.
Variables wfhDateSet odDateSet : gset string.

(** The object literal both passes store for a date key they meet for the
    first time. *)
Definition newDay (dateKey : string) : DayData :=
  {| date := dateKey; checkIns := []; checkOuts := [];
     status := absent; attendanceStatus := JsNull;
     isWFH := bool_decide (dateKey ∈ wfhDateSet);
     isOD := bool_decide (dateKey ∈ odDateSet) |}.

(** [dailyData[dateKey]] after the guard [if (!dailyData[dateKey]) ...]. *)
Definition entry (dailyData : ProcessedData) (dateKey : string) : DayData :=
  default (newDay dateKey) (dailyData !! dateKey).

(** [record.status?.toLowerCase().replace(/\s+/g, '_')] *)
Definition normalizeStatus (s : option string) : Nullable :=
  match s with
  | None => JsUndefined
  | Some t =>
      JsStr (JsString.replaceWhiteSpaceRuns false (JsString.toLowerCase t))
  end.

(** The chain of comparisons that sets the initial status; a word outside
    the five leaves the status as it is. *)
Definition statusOfWord (a : Nullable) : option Status :=
  match a with
  | JsStr s =>
      if String.eqb s "on_leave" then Some on_leave
      else if String.eqb s "half_day" then Some half_day
      else if String.eqb s "work_from_home" then Some work_from_home
      else if String.eqb s "present" then Some present
      else if String.eqb s "absent" then Some absent
      else None
  | _ => None
  end.

(** [attendance_date] when the record passes the guard
    [if (!record.attendance_date) return]. *)
Definition attendanceKey (record : Attendance) : option string :=
  match attendance_date record with
  | None => None
  | Some dateKey => if JsString.truthy dateKey then Some dateKey else None
  end.

(** What the first [forEach] does to the day's entry. *)
Definition applyAttendance (d : DayData) (record : Attendance) : DayData :=
  let a := normalizeStatus (att_status record) in
  let d := set_attendanceStatus a d in
  match statusOfWord a with
  | Some s => set_status s d
  | None => d
  end.

(** Body of the first [forEach], over the Attendance records. *)
Definition attendanceStep (dailyData : ProcessedData) (record : Attendance)
  : ProcessedData :=
  match attendanceKey record with
  | None => dailyData
  | Some dateKey =>
      <[dateKey := applyAttendance (entry dailyData dateKey) record]> dailyData
  end.

(** [new Date(record.time).toISOString().split('T')[0]], or [None] where
    the record is skipped (no time, or a time that is not a date). *)
Definition checkinDateKey (record : EmployeeCheckin) : option string :=
  match time record with
  | None => None
  | Some tm =>
      if negb (JsString.truthy tm) then None
      else
        match JsDate.parse tza tm with
        | None => None
        | Some t => Some (JsString.beforeFirst "T" (JsDate.toISOString t))
        end
  end.

(** What the second [forEach] does to the day's entry. *)
Definition applyCheckin (d : DayData) (record : EmployeeCheckin) : DayData :=
  let tm := default "" (time record) in
  if String.eqb (log_type record) "IN" then push_checkIn tm d
  else if String.eqb (log_type record) "OUT" then push_checkOut tm d
  else d.

(** Body of the second [forEach], over the Employee Checkin records. *)
Definition checkinStep (dailyData : ProcessedData) (record : EmployeeCheckin)
  : ProcessedData :=
  match checkinDateKey record with
  | None => dailyData
  | Some dateKey =>
      <[dateKey := applyCheckin (entry dailyData dateKey) record]> dailyData
  end.

(** [['on_leave', 'half_day', 'work_from_home'].includes(a)] *)
Definition isLeaveWord (a : Nullable) : bool :=
  match a with
  | JsStr s =>
      String.eqb s "on_leave" || String.eqb s "half_day"
      || String.eqb s "work_from_home"
  | _ => false
  end.

(** Body of the third [forEach], over the keys of [dailyData]. *)
Definition finalStatus (dayData : DayData) : DayData :=
  if truthyN (attendanceStatus dayData) && isLeaveWord (attendanceStatus dayData)
  then dayData
  else
    let hasCheckIn := (0 <? length (checkIns dayData))%nat in
    let hasCheckOut := (0 <? length (checkOuts dayData))%nat in
    if hasCheckIn && hasCheckOut then
      if (length (checkIns dayData) <=? length (checkOuts dayData))%nat
      then set_status present dayData
      else set_status incomplete dayData
    else if hasCheckIn && negb hasCheckOut then set_status incomplete dayData
    else if negb hasCheckIn && hasCheckOut then set_status incomplete dayData
    else if negb (truthyN (attendanceStatus dayData))
         then set_status absent dayData
         else dayData.

Definition processAttendanceData
    (records : list EmployeeCheckin) (attendanceRecords : list Attendance)
  : ProcessedData :=
  let afterAttendance := fold_left attendanceStep attendanceRecords ∅ in
  let afterCheckins := fold_left checkinStep records afterAttendance in
  finalStatus <$> afterCheckins.

End Reconciler.

(** ** The component: properties, state, and what it does to the world *)

Record Employee : Type := { name : string }.

Record WFHApplication : Type := {
  wfh_start_date : string;
  wfh_end_date : string;
}.

Record ODApplication : Type := {
  od_start_date : string;
  od_end_date : string;
}.

(** [AttendanceCalendarProps], without the callbacks. [currentMonth] is the
    time value of a valid Date. *)
Record Props : Type := {
  currentEmployee : option Employee;
  currentMonth : Z;
}.

(** One field per [useState] hook. *)
Record State : Type := {
  monthlyRecords : list EmployeeCheckin;
  processedData : ProcessedData;
  wfhDates : gset string;
  odDates : gset string;
  refreshing : bool;
  showDialog : bool;
  selectedDate : option string;
  selectedDayData : option DayData;
  entryTime : string;
  isSubmitting : bool;
  allowedLogType : option LogType;
}.

Definition setFetched (records : list EmployeeCheckin) (processed : ProcessedData)
    (wfh od : gset string) (st : State) : State :=
  {| monthlyRecords := records; processedData := processed;
     wfhDates := wfh; odDates := od; refreshing := refreshing st;
     showDialog := showDialog st; selectedDate := selectedDate st;
     selectedDayData := selectedDayData st; entryTime := entryTime st;
     isSubmitting := isSubmitting st; allowedLogType := allowedLogType st |}.

Definition setRefreshing (b : bool) (st : State) : State :=
  {| monthlyRecords := monthlyRecords st; processedData := processedData st;
     wfhDates := wfhDates st; odDates := odDates st; refreshing := b;
     showDialog := showDialog st; selectedDate := selectedDate st;
     selectedDayData := selectedDayData st; entryTime := entryTime st;
     isSubmitting := isSubmitting st; allowedLogType := allowedLogType st |}.

Definition setIsSubmitting (b : bool) (st : State) : State :=
  {| monthlyRecords := monthlyRecords st; processedData := processedData st;
     wfhDates := wfhDates st; odDates := odDates st;
     refreshing := refreshing st;
     showDialog := showDialog st; selectedDate := selectedDate st;
     selectedDayData := selectedDayData st; entryTime := entryTime st;
     isSubmitting := b; allowedLogType := allowedLogType st |}.

(** The five dialog setters together, as both handlers call them. *)
Definition setDialog (shown : bool) (dateKey : option string)
    (dayData : option DayData) (text : string) (allowed : option LogType)
    (st : State) : State :=
  {| monthlyRecords := monthlyRecords st; processedData := processedData st;
     wfhDates := wfhDates st; odDates := odDates st;
     refreshing := refreshing st;
     showDialog := shown; selectedDate := dateKey;
     selectedDayData := dayData; entryTime := text;
     isSubmitting := isSubmitting st; allowedLogType := allowed |}.

(** A value thrown or rejected with: an [Error] object with its message, or
    anything else. *)
Inductive JsError : Type :=
| ErrorObject (message : string)
| OtherValue.

(** [error instanceof Error ? error.message : 'Unknown error'] *)
Definition errorMessage (e : JsError) : string :=
  match e with
  | ErrorObject m => m
  | OtherValue => "Unknown error"
  end.

Inductive Outcome (A : Type) : Type :=
| Fulfilled (v : A)
| Rejected (e : JsError).
Arguments Fulfilled {A} v.
Arguments Rejected {A} e.

(** The answer to one [frappeService.getList] call: when its promise
    settles and how. A fulfilled call may carry no list ([records || []]). *)
Record Response (A : Type) : Type := {
  settledAt : nat;
  outcome : Outcome (option (list A));
}.
Arguments settledAt {A} r.
Arguments outcome {A} r.

(** What the backend answers during one run of a handler. *)
Record Network : Type := {
  checkinList : Response EmployeeCheckin;
  attendanceList : Response Attendance;
  wfhList : Response WFHApplication;
  odList : Response ODApplication;
  createDocResult : Outcome unit;
}.

(** What a handler does besides setting state (console output left out). *)
Inductive Effect : Type :=
| Alert (title message : string)
| GetList (doctype : string)
| CreateDoc (doctype employee timestamp : string) (logType : LogType).

Definition isNetworkCall (e : Effect) : bool :=
  match e with
  | Alert _ _ => false
  | GetList _ | CreateDoc _ _ _ _ => true
  end.

(** ** [Promise.all] over the four list requests

    The joined promise rejects with the reason of the request that is
    rejected first in time (the earlier array position on a tie), and is
    fulfilled with all four values when none is rejected. *)
Definition rejection {A} (r : Response A) : option (nat * JsError) :=
  match outcome r with
  | Rejected e => Some (settledAt r, e)
  | Fulfilled _ => None
  end.

Definition value {A} (r : Response A) : option (list A) :=
  match outcome r with
  | Fulfilled v => Some (default [] v)
  | Rejected _ => None
  end.

Definition earlier (x y : option (nat * JsError)) : option (nat * JsError) :=
  match x, y with
  | Some (tx, ex), Some (ty, ey) =>
      if (tx <=? ty)%nat then Some (tx, ex) else Some (ty, ey)
  | Some a, None => Some a
  | None, b => b
  end.

Definition promiseAll (net : Network)
  : Outcome (list EmployeeCheckin * list Attendance
             * list WFHApplication * list ODApplication) :=
  match earlier (earlier (earlier (rejection (checkinList net))
                                  (rejection (attendanceList net)))
                         (rejection (wfhList net)))
                (rejection (odList net)) with
  | Some (_, e) => Rejected e
  | None =>
      match value (checkinList net), value (attendanceList net),
            value (wfhList net), value (odList net) with
      | Some a, Some b, Some c, Some d => Fulfilled (a, b, c, d)
      | _, _, _, _ => Rejected OtherValue
      end
  end.

(** ** The handlers of the component *)
Section Component.

(** The host's offset from UTC, in milliseconds. *)
Variable tza : Z.

(** *** Loading a month: [fetchMonthlyRecords] *)

(** The [while (currentDate <= end)] loop that turns one application into
    date keys. Every turn moves [currentDate] one day forward, so [fuel]
    bounds the number of turns by the days between the two dates. On the
    fixed-offset host of [JsDate] one day forward is 24 hours later; a host
    that changes its offset between [start] and [end] is outside the
    model. *)
Fixpoint expandLoop (fuel : nat) (currentDate endDate : Z) (acc : gset string)
  : gset string :=
  match fuel with
  | O => acc
  | S fuel' =>
      if currentDate <=? endDate then
        let dateKey := JsDate.dateKeyOf (JsDate.getFullYear tza currentDate)
                                        (JsDate.getMonth tza currentDate)
                                        (JsDate.getDate tza currentDate) in
        match JsDate.setDate tza (Some currentDate)
                             (JsDate.getDate tza currentDate + 1) with
        | Some next => expandLoop fuel' next endDate ({[dateKey]} ∪ acc)
        | None => {[dateKey]} ∪ acc
        end
      else acc
  end.

(** An invalid start or end date makes the comparison false at once. *)
Definition expandDates (startText endText : string) (acc : gset string)
  : gset string :=
  match JsDate.parse tza startText, JsDate.parse tza endText with
  | Some s, Some e =>
      expandLoop (Z.to_nat ((e - s) / JsDate.msPerDay + 1)) s e acc
  | _, _ => acc
  end.

Definition wfhDateSetOf (wfhRecords : list WFHApplication) : gset string :=
  fold_left (fun acc wfh =>
               expandDates (wfh_start_date wfh) (wfh_end_date wfh) acc)
            wfhRecords ∅.

Definition odDateSetOf (odRecords : list ODApplication) : gset string :=
  fold_left (fun acc od =>
               expandDates (od_start_date od) (od_end_date od) acc)
            odRecords ∅.

Definition listRequests : list Effect :=
  [ GetList "Employee Checkin"; GetList "Attendance";
    GetList "Work From Home Application"; GetList "OD Application" ].

Definition fetchMonthlyRecords (props : Props) (net : Network) (st : State)
  : State * list Effect :=
  match currentEmployee props with
  | None => (st, [])
  | Some _ =>
      match promiseAll net with
      | Fulfilled (records, attendanceRecords, wfhRecords, odRecords) =>
          let wfhDateSet := wfhDateSetOf wfhRecords in
          let odDateSet := odDateSetOf odRecords in
          let processed :=
            processAttendanceData tza wfhDateSet odDateSet
                                  records attendanceRecords in
          (setFetched records processed wfhDateSet odDateSet st, listRequests)
      | Rejected error =>
          (st, listRequests
                 ++ [Alert "Error" ("Failed to fetch calendar data: "
                                      +:+ errorMessage error)])
      end
  end.

Definition onRefresh (props : Props) (net : Network) (st : State)
  : State * list Effect :=
  let '(st', effects) := fetchMonthlyRecords props net (setRefreshing true st) in
  (setRefreshing false st', effects).

(** *** The edit-window gate: [isWithinLast7Days] and [handleDayClick]

    [now] is the time value [new Date()] returns when the handler runs.
    Both midnights are taken at the one offset [tza] of the host; a host
    that changes its offset between the two days is outside the model. *)
Definition isWithinLast7Days (now : Z) (dateKey : string) : bool :=
  let selectedDate := JsDate.setHoursZero tza (JsDate.parse tza dateKey) in
  let today := JsDate.setHoursZero tza (Some now) in
  match today, selectedDate with
  | Some t, Some s =>
      let diffTime := t - s in
      let diffDays := diffTime / (1000 * 60 * 60 * 24) in
      (0 <=? diffDays) && (diffDays <=? 6)
  | _, _ => false
  end.

(** The text the time field starts with: the current time, 12-hour. *)
Definition defaultEntryTime (now : Z) : string :=
  let hours := JsDate.getHours tza now in
  let minutes := JsDate.getMinutes tza now in
  let period := if 12 <=? hours then "PM" else "AM" in
  let hours12 := if hours mod 12 =? 0 then 12 else hours mod 12 in
  JsDate.pad 2 hours12 +:+ ":" +:+ JsDate.pad 2 minutes +:+ " " +:+ period.

(** The entry the dialog will offer, from the day's existing records. *)
Definition allowedEntry (dayData : option DayData) : option LogType :=
  let hasCheckIn :=
    (0 <? from_option (fun d => length (checkIns d)) 0 dayData)%nat in
  let hasCheckOut :=
    (0 <? from_option (fun d => length (checkOuts d)) 0 dayData)%nat in
  if hasCheckIn && hasCheckOut then None
  else if hasCheckIn && negb hasCheckOut then Some OUT
  else if negb hasCheckIn && hasCheckOut then Some IN
  else Some IN.

Definition handleDayClick (props : Props) (now : Z) (day : Z)
    (dayData : option DayData) (st : State) : State * list Effect :=
  let dateKey := JsDate.dateKeyOf (JsDate.getFullYear tza (currentMonth props))
                                  (JsDate.getMonth tza (currentMonth props))
                                  day in
  if negb (isWithinLast7Days now dateKey) then (st, [])
  else
    (setDialog true (Some dateKey) dayData (defaultEntryTime now)
               (allowedEntry dayData) st, []).

(** What the entry dialog shows, read off the JSX of the inner [Modal]. *)
Record DialogView : Type := {
  dialogVisible : bool;
  dialogTitle : string;
  alreadyCompleteNotice : bool;
  timeInputShown : bool;
  submitButtonShown : bool;
}.

Definition renderDialog (st : State) : DialogView :=
  {| dialogVisible := showDialog st;
     dialogTitle := match allowedLogType st with
                    | Some IN => "Add Check-in"
                    | Some OUT => "Add Check-out"
                    | None => "Attendance Entry"
                    end;
     alreadyCompleteNotice := bool_decide (allowedLogType st = None);
     timeInputShown := bool_decide (allowedLogType st ≠ None);
     submitButtonShown := bool_decide (allowedLogType st ≠ None) |}.

(** *** The entry submitter: [handleSubmitEntry] *)

(** [c] is the capital letter [u] in either case (flag [i]). *)
Definition isLetter (u c : ascii) : bool :=
  Ascii.eqb (JsString.toUpperChar c) u.

Fixpoint skipWhiteSpace (s : string) : string :=
  match s with
  | String c r => if JsString.isWhiteSpace c then skipWhiteSpace r else s
  | EmptyString => EmptyString
  end.

(** [(\d{1,2}):] at the start of the text: the capture and what follows
    the colon. *)
Definition matchHours (s : string) : option (string * string) :=
  match s with
  | String c1 (String c2 r) =>
      if JsString.isDigit c1 then
        if JsString.isDigit c2 then
          match r with
          | String ":" r' => Some (String c1 (String c2 EmptyString), r')
          | _ => None
          end
        else if Ascii.eqb c2 ":" then Some (String c1 EmptyString, r)
        else None
      else None
  | _ => None
  end.

(** [(\d{2})] *)
Definition matchMinutes (s : string) : option (string * string) :=
  match s with
  | String c1 (String c2 r) =>
      if JsString.isDigit c1 && JsString.isDigit c2
      then Some (String c1 (String c2 EmptyString), r) else None
  | _ => None
  end.

(** [(AM|PM)$] *)
Definition matchPeriod (s : string) : option string :=
  match s with
  | String a (String m EmptyString) =>
      if (isLetter "A" a || isLetter "P" a) && isLetter "M" m
      then Some s else None
  | _ => None
  end.

(** [entryTime.match(/^(\d{1,2}):(\d{2})\s*(AM|PM)$/i)]: the three
    captures, or [None] for [null]. *)
Definition matchEntryTime (text : string) : option (string * string * string) :=
  '(hours, s1) ← matchHours text;
  '(minutes, s2) ← matchMinutes s1;
  period ← matchPeriod (skipWhiteSpace s2);
  Some (hours, minutes, period).

(** The 12-hour to 24-hour conversion of the three captures. *)
Definition time24Of (m : string * string * string) : string :=
  let '(h, minutes, p) := m in
  let hours := JsString.parseInt h in
  let period := JsString.toUpperCase p in
  let hours :=
    if String.eqb period "PM" && negb (hours =? 12) then hours + 12
    else if String.eqb period "AM" && (hours =? 12) then 0
    else hours in
  JsDate.pad 2 hours +:+ ":" +:+ minutes.

Definition entryName (l : LogType) (capital : bool) : string :=
  match l, capital with
  | IN, true => "Check-in"
  | OUT, true => "Check-out"
  | IN, false => "check-in"
  | OUT, false => "check-out"
  end.

Definition handleSubmitEntry (props : Props) (net : Network) (st : State)
  : State * list Effect :=
  match JsString.truthy (entryTime st), selectedDate st,
        currentEmployee props, allowedLogType st with
  | true, Some dateKey, Some employee, Some logType =>
      if negb (JsString.truthy dateKey)
      then (st, [Alert "Error" "Please enter a valid time"])
      else
        match matchEntryTime (entryTime st) with
        | None =>
            (st, [Alert "Error"
                    "Please enter time in format HH:MM AM/PM (e.g., 09:30 AM or 05:30 PM)"])
        | Some m =>
            let time24 := time24Of m in
            let timestamp := dateKey +:+ " " +:+ time24 +:+ ":00" in
            let request :=
              CreateDoc "Employee Checkin" (name employee) timestamp logType in
            match createDocResult net with
            | Fulfilled _ =>
                let st1 := setDialog false None None "" None
                                     (setIsSubmitting true st) in
                let '(st2, effects) := fetchMonthlyRecords props net st1 in
                (setIsSubmitting false st2,
                 request
                   :: Alert "Success"
                        (entryName logType true +:+ " record added successfully!")
                   :: effects)
            | Rejected error =>
                (setIsSubmitting false (setIsSubmitting true st),
                 [request;
                  Alert "Error"
                    ("Failed to add " +:+ entryName logType false
                       +:+ " record: " +:+ errorMessage error)])
            end
        end
  | _, _, _, _ => (st, [Alert "Error" "Please enter a valid time"])
  end.

End Component.

(** ** The calendar grid: [renderCalendarGrid] *)

Record DayInfo : Type := {
  day : Z;
  dateKey : string;
  data : option DayData;
}.

Section Grid.

Variable tza : Z.

(** The object pushed for one day of the month. *)
Definition dayCell (year month : Z) (processed : ProcessedData) (d : Z)
  : DayInfo :=
  let key := JsDate.dateKeyOf year month d in
  {| day := d; dateKey := key; data := processed !! key |}.

(** Body of the loop over the days: a full week is moved to [weeks]
    before the day is pushed. *)
Definition pushDay (year month : Z) (processed : ProcessedData)
    (acc : list (list (option DayInfo)) * list (option DayInfo)) (d : Z)
  : list (list (option DayInfo)) * list (option DayInfo) :=
  let '(weeks, currentWeek) := acc in
  let '(weeks, currentWeek) :=
    if (length currentWeek =? 7)%nat then (weeks ++ [currentWeek], [])
    else (weeks, currentWeek) in
  (weeks, currentWeek ++ [Some (dayCell year month processed d)]).

Definition daysInMonthOf (year month : Z) : Z :=
  JsDate.getDate tza (JsDate.ofComponents tza year (month + 1) 0).

Definition startingDayOfWeekOf (year month : Z) : Z :=
  JsDate.getDay tza (JsDate.ofComponents tza year month 1).

(** The days [1 .. daysInMonth] the second loop runs over. *)
Definition daysOf (daysInMonth : Z) : list Z :=
  Z.of_nat <$> seq 1 (Z.to_nat daysInMonth).

Definition renderCalendarGrid (props : Props) (st : State)
  : list (list (option DayInfo)) :=
  let year := JsDate.getFullYear tza (currentMonth props) in
  let month := JsDate.getMonth tza (currentMonth props) in
  let daysInMonth := daysInMonthOf year month in
  let startingDayOfWeek := startingDayOfWeekOf year month in
  let currentWeek := replicate (Z.to_nat startingDayOfWeek) None in
  let '(weeks, currentWeek) :=
    fold_left (pushDay year month (processedData st))
              (daysOf daysInMonth) ([], currentWeek) in
  let currentWeek :=
    currentWeek ++ replicate (7 - length currentWeek) None in
  weeks ++ [currentWeek].

End Grid.

(** ** Vocabulary for the statements about the reconciler *)

(** The Attendance records of date [k] that pass the guard, in list order;
    the last one is the one whose word the day keeps. *)
Definition attendanceOn (k : string) (atts : list Attendance) : list Attendance :=
  filter (fun r => attendanceKey r = Some k) atts.

(** The check-events the reconciler files under date key [k]. *)
Definition checkinsOn (tza : Z) (k : string) (records : list EmployeeCheckin)
  : list EmployeeCheckin :=
  filter (fun r => checkinDateKey tza r = Some k) records.

Definition timeText (r : EmployeeCheckin) : string := default "" (time r).

Definition insOf (records : list EmployeeCheckin) : list string :=
  timeText <$> filter (fun r => log_type r = "IN") records.

Definition outsOf (records : list EmployeeCheckin) : list string :=
  timeText <$> filter (fun r => log_type r = "OUT") records.

(** The shape both passes over the records share: a record either is
    skipped or rewrites the entry of its own date key. *)
Definition keyedStep {R : Type} (key : R -> option string)
    (upd : DayData -> R -> DayData) (wfh od : gset string)
    (m : ProcessedData) (r : R) : ProcessedData :=
  match key r with
  | None => m
  | Some k => <[k := upd (entry wfh od m k) r]> m
  end.

(** ** Sample data *)
Module Sample.

(** India Standard Time, UTC+05:30, and US Eastern Standard Time,
    UTC-05:00, as offsets in milliseconds. *)
Definition IST : Z := 19800000.
Definition EST : Z := -18000000.

Definition checkin (t l : string) : EmployeeCheckin :=
  {| time := Some t; log_type := l |}.

Definition attendance (d s : string) : Attendance :=
  {| attendance_date := Some d; att_status := Some s |}.

(** 2024-03-10: in at 09:00, out at 18:00. *)
Definition fullDay : list EmployeeCheckin :=
  [checkin "2024-03-10 09:00:00" "IN"; checkin "2024-03-10 18:00:00" "OUT"].

(** 2024-03-10: a single check-in and no check-out. *)
Definition strayCheckin : list EmployeeCheckin :=
  [checkin "2024-03-10 09:00:00" "IN"].

(** A check-in at two in the morning, local time, of 2024-03-10. *)
Definition nightCheckin : list EmployeeCheckin :=
  [checkin "2024-03-10 02:00:00" "IN"].

End Sample.

Module SampleUI.

(** The time value of [h] o'clock local time on a given date ([m] is the
    month index 0..11) on a host with offset [tza]. *)
Definition localHour (tza y m d h : Z) : Z :=
  JsDate.UTC tza (JsDate.MakeDate (JsDate.MakeDay y m d)
                                  (JsDate.MakeTime h 0 0 0)).

Definition employee : Employee := {| name := "EMP-001" |}.

(** The calendar showing the month of [y]-[m]. *)
Definition propsFor (tza y m : Z) : Props :=
  {| currentEmployee := Some employee;
     currentMonth := localHour tza y m 1 0 |}.

(** The state of a freshly mounted component. *)
Definition initial : State :=
  {| monthlyRecords := []; processedData := ∅; wfhDates := ∅; odDates := ∅;
     refreshing := false; showDialog := false; selectedDate := None;
     selectedDayData := None; entryTime := ""; isSubmitting := false;
     allowedLogType := None |}.

(** The dialog open on 2024-03-10 for a check-in, with [text] typed into
    the time field. *)
Definition typing (text : string) : State :=
  setDialog true (Some "2024-03-10") None text (Some IN) initial.

Definition answer {A} (o : Outcome (option (list A))) : Response A :=
  {| settledAt := 1; outcome := o |}.

(** A backend whose attendance request fails with [message]. *)
Definition attendanceDown (message : string) : Network :=
  {| checkinList := answer (Fulfilled (Some Sample.fullDay));
     attendanceList := answer (Rejected (ErrorObject message));
     wfhList := answer (Fulfilled None);
     odList := answer (Fulfilled None);
     createDocResult := Fulfilled () |}.

End SampleUI.

(** ** The other functions of the component *)

(** *** [getMonthDateRange]: the bounds the loader asks the backend for *)
Record MonthDateRange : Type := {
  startTime : string;
  endTime : string;
  startDate : string;
  endDate : string;
}.

Definition getMonthDateRange (tza : Z) (shown : Z) : MonthDateRange :=
  let year := JsDate.getFullYear tza shown in
  let month := JsDate.getMonth tza shown in
  let first := JsDate.ofComponents tza year month 1 in
  let last := JsDate.ofComponents tza year (month + 1) 0 in
  let startKey := JsDate.dateKeyOf (JsDate.getFullYear tza first)
                                   (JsDate.getMonth tza first)
                                   (JsDate.getDate tza first) in
  let endKey := JsDate.dateKeyOf (JsDate.getFullYear tza last)
                                 (JsDate.getMonth tza last)
                                 (JsDate.getDate tza last) in
  {| startTime := startKey +:+ " 00:00:00";
     endTime := endKey +:+ " 23:59:59";
     startDate := startKey;
     endDate := endKey |}.

(** *** [getStatusColor] and [getStatusText] *)

(** The text of a [DayData.status]. *)
Definition statusWord (s : Status) : string :=
  match s with
  | present => "present"
  | incomplete => "incomplete"
  | absent => "absent"
  | on_leave => "on_leave"
  | half_day => "half_day"
  | work_from_home => "work_from_home"
  end.

Definition getStatusColor (status : string) : string :=
  if String.eqb status "present" then "#4CAF50"
  else if String.eqb status "absent" then "#F44336"
  else if String.eqb status "on_leave" then "#9C27B0"
  else if String.eqb status "half_day" then "#00BCD4"
  else if String.eqb status "work_from_home" then "#2196F3"
  else if String.eqb status "incomplete" then "#FFC107"
  else "#E0E0E0".

Definition getStatusText (status : string) : string :=
  if String.eqb status "present" then "P"
  else if String.eqb status "absent" then "A"
  else if String.eqb status "on_leave" then "L"
  else if String.eqb status "half_day" then "H"
  else if String.eqb status "work_from_home" then "W"
  else if String.eqb status "incomplete" then "I"
  else "".

(** *** [renderDayCell]: what one cell of the grid shows *)

(** The cell of a day: its background, whether the day number is drawn as
    today, the accessibility label, the badge in the corner (colour and
    letter) and the arguments its tap passes to [handleDayClick]. *)
Record DayCellView : Type := {
  cellBackground : string;
  cellIsToday : bool;
  cellLabel : string;
  cellBadge : option (string * string);
  cellTap : Z * option DayData;
}.

Inductive CellView : Type :=
| EmptyCell (backgroundColor : string)
| DayCell (view : DayCellView).

Section Rendering.

(** The host's offset and the three theme colours the cell uses
    ([theme.colors.card], [.primary] and [.background]). *)
Variable tza : Z.
Variables themeCard themePrimary themeBackground : string.

Definition isNullN (v : Nullable) : bool :=
  match v with JsNull => true | _ => false end.

Definition renderDayCell (props : Props) (st : State) (now : Z)
    (dayInfo : option DayInfo) : CellView :=
  match dayInfo with
  | None => EmptyCell themeBackground
  | Some info =>
      let isToday :=
        (JsDate.getFullYear tza now =? JsDate.getFullYear tza (currentMonth props))
        && (JsDate.getMonth tza now =? JsDate.getMonth tza (currentMonth props))
        && (JsDate.getDate tza now =? day info) in
      let isWFH := bool_decide (dateKey info ∈ wfhDates st) in
      let isOD := bool_decide (dateKey info ∈ odDates st) in
      let backgroundColor :=
        match data info with
        | Some d =>
            let hasCheckins :=
              (0 <? length (checkIns d))%nat || (0 <? length (checkOuts d))%nat in
            let hasAttendanceRecord := negb (isNullN (attendanceStatus d)) in
            let opacity :=
              if hasAttendanceRecord && hasCheckins then "80" else "60" in
            getStatusColor (statusWord (status d)) +:+ opacity
        | None =>
            if isWFH then "#2196F3" +:+ "20"
            else if isOD then "#FF9800" +:+ "20"
            else if isToday then themePrimary +:+ "20"
            else themeCard
        end in
      DayCell
        {| cellBackground := backgroundColor;
           cellIsToday := isToday;
           cellLabel :=
             "Day " +:+ JsString.ofInt (day info)
               +:+ match data info with
                   | Some d => ", Status: " +:+ statusWord (status d)
                   | None => ""
                   end
               +:+ (if isWFH then ", Work From Home" else "")
               +:+ (if isOD then ", On Duty" else "");
           cellBadge :=
             if isWFH then Some ("#2196F3", "W")
             else if isOD then Some ("#FF9800", "O")
             else match data info with
                  | Some d => Some (getStatusColor (statusWord (status d)),
                                    getStatusText (statusWord (status d)))
                  | None => None
                  end;
           cellTap := (day info, data info) |}
  end.

End Rendering.

(** ** Vocabulary for the statements about dates *)

(** The number of days of month [m] (0..11) of year [y]. *)
Definition monthLength (y m : Z) : Z :=
  match m with
  | 1 => if JsDate.DaysInYear y =? 366 then 29 else 28
  | 3 | 5 | 8 | 10 => 30
  | _ => 31
  end.


(** The date key of the calendar date of [t] in UTC, and on the host. *)
Definition utcDateKey (t : Z) : string :=
  JsDate.dateKeyOf (JsDate.YearFromTime t) (JsDate.MonthFromTime t)
                   (JsDate.DateFromTime t).

Definition localDateKey (tza t : Z) : string :=
  utcDateKey (JsDate.LocalTime tza t).

(** The date key of day number [D] (days since the epoch). *)
Definition dayDateKey (D : Z) : string := utcDateKey (D * JsDate.msPerDay).

(** Two days that agree on everything but, possibly, the WFH and OD
    flags. *)
Definition sameButFlags (d d' : DayData) : Prop :=
  date d = date d' /\ checkIns d = checkIns d' /\ checkOuts d = checkOuts d'
  /\ status d = status d' /\ attendanceStatus d = attendanceStatus d'.


(** Backends for the examples. *)
Module SampleNet.

(** Every request succeeds; one full day of check events comes back. *)
Definition allUp : Network :=
  {| checkinList := SampleUI.answer (Fulfilled (Some Sample.fullDay));
     attendanceList := SampleUI.answer (Fulfilled None);
     wfhList := SampleUI.answer (Fulfilled None);
     odList := SampleUI.answer (Fulfilled None);
     createDocResult := Fulfilled () |}.

(** The lists can be read but a new record is refused with [message]. *)
Definition writeDown (message : string) : Network :=
  {| checkinList := SampleUI.answer (Fulfilled (Some Sample.fullDay));
     attendanceList := SampleUI.answer (Fulfilled None);
     wfhList := SampleUI.answer (Fulfilled None);
     odList := SampleUI.answer (Fulfilled None);
     createDocResult := Rejected (ErrorObject message) |}.

(** Every request succeeds; one approved WFH application runs from
    2024-03-04 to 2024-03-06. *)
Definition wfhThreeDays : Network :=
  {| checkinList := SampleUI.answer (Fulfilled (Some Sample.fullDay));
     attendanceList := SampleUI.answer (Fulfilled None);
     wfhList :=
       SampleUI.answer
         (Fulfilled (Some [ {| wfh_start_date := "2024-03-04";
                               wfh_end_date := "2024-03-06" |} ]));
     odList := SampleUI.answer (Fulfilled None);
     createDocResult := Fulfilled () |}.

End SampleNet.

(** [CreateDoc] effects among [effects]. *)
Definition isCreateDoc (e : Effect) : bool :=
  match e with
  | CreateDoc _ _ _ _ => true
  | _ => false
  end.
(** ** Facts about the Date model *)
Section DateFacts.
Import JsDate.

(** [YearFromTime] meets its definition in ECMAScript: the year's first
    day is not after the day of [t], the next year's first day is. *)
Lemma YearFromTime_spec t :
  DayFromYear (YearFromTime t) <= Day t < DayFromYear (YearFromTime t + 1).
Proof.
  unfold YearFromTime. generalize (Day t). intros d. cbv zeta.
  destruct (Z.leb_spec (DayFromYear (1970 + 400 * d / 146097 + 1)) d);
    [| destruct (Z.leb_spec (DayFromYear (1970 + 400 * d / 146097)) d)];
    unfold DayFromYear in *; Z.to_euclidean_division_equations; lia.
Qed.

Lemma DayFromYear_succ y : DayFromYear (y + 1) = DayFromYear y + DaysInYear y.
Proof.
  unfold DayFromYear, DaysInYear.
  destruct (Z.eqb_spec (y mod 4) 0), (Z.eqb_spec (y mod 100) 0),
    (Z.eqb_spec (y mod 400) 0); simpl;
    Z.to_euclidean_division_equations; lia.
Qed.

Lemma DayWithinYear_range t :
  0 <= DayWithinYear t < 365 + InLeapYear t.
Proof.
  unfold DayWithinYear, InLeapYear.
  pose proof (YearFromTime_spec t) as H.
  rewrite DayFromYear_succ in H.
  assert (DaysInYear (YearFromTime t) = 365
          \/ DaysInYear (YearFromTime t) = 366).
  { unfold DaysInYear.
    repeat match goal with
           | |- context [if ?b then _ else _] => destruct b
           end; auto. }
  destruct (Z.eqb_spec (DaysInYear (YearFromTime t)) 366); lia.
Qed.

(** The day of the month is between 1 and 31. *)
Lemma DateFromTime_range t : 1 <= DateFromTime t <= 31.
Proof.
  pose proof (DayWithinYear_range t) as H.
  unfold DateFromTime, MonthFromTime.
  assert (Hl : InLeapYear t = 0 \/ InLeapYear t = 1).
  { unfold InLeapYear. destruct (_ =? _); auto. }
  generalize dependent (DayWithinYear t). generalize dependent (InLeapYear t).
  intros l Hl d H.
  repeat match goal with
         | |- context [if ?a <? ?b then _ else _] => destruct (Z.ltb_spec a b)
         end; lia.
Qed.
End DateFacts.

Section LoaderFacts.

Variable tza : Z.

(** [currentDate.setDate(currentDate.getDate() + 1)] moves the date one
    day forward. *)
Lemma MonthFromTime_range t : 0 <= JsDate.MonthFromTime t < 12.
Proof.
  unfold JsDate.MonthFromTime.
  repeat match goal with
         | |- context [if ?a <? ?b then _ else _] => destruct (a <? b)
         end; lia.
Qed.

(** The day of the month counts from the start of the month. *)
Lemma monthStart_DateFromTime t :
  JsDate.monthStart (JsDate.YearFromTime t) (JsDate.MonthFromTime t)
    + JsDate.DateFromTime t
  = JsDate.DayWithinYear t + 1.
Proof.
  unfold JsDate.monthStart, JsDate.DateFromTime, JsDate.MonthFromTime,
    JsDate.InLeapYear.
  generalize (JsDate.DayWithinYear t). intros d.
  destruct (JsDate.DaysInYear (JsDate.YearFromTime t) =? 366);
    repeat match goal with
           | |- context [if ?a <? ?b then _ else _] => destruct (a <? b)
           end; lia.
Qed.

(** [currentDate.setDate(currentDate.getDate() + 1)] moves the date one
    day forward. *)
Lemma setDate_next_day t :
  JsDate.setDate tza (Some t) (JsDate.getDate tza t + 1)
  = Some (t + JsDate.msPerDay).
Proof.
  unfold JsDate.setDate, JsDate.getDate. f_equal.
  set (lt := JsDate.LocalTime tza t).
  assert (Hday : JsDate.MakeDay (JsDate.YearFromTime lt) (JsDate.MonthFromTime lt)
                                (JsDate.DateFromTime lt + 1)
                 = JsDate.Day lt + 1).
  { pose proof (MonthFromTime_range lt) as Hm.
    pose proof (monthStart_DateFromTime lt) as Hs.
    unfold JsDate.MakeDay.
    rewrite Z.div_small, Z.mod_small, Z.add_0_r by done.
    unfold JsDate.DayWithinYear in Hs. lia. }
  rewrite Hday.
  unfold JsDate.UTC, JsDate.MakeDate, JsDate.TimeWithinDay, JsDate.Day, lt,
    JsDate.LocalTime.
  pose proof (Z.div_mod (t + tza) JsDate.msPerDay) as H.
  unfold JsDate.msPerDay in *. lia.
Qed.

Lemma expandLoop_S fuel s e acc :
  expandLoop tza (S fuel) s e acc
  = if s <=? e then
      let dateKey := JsDate.dateKeyOf (JsDate.getFullYear tza s)
                                      (JsDate.getMonth tza s)
                                      (JsDate.getDate tza s) in
      match JsDate.setDate tza (Some s) (JsDate.getDate tza s + 1) with
      | Some next => expandLoop tza fuel next e ({[dateKey]} ∪ acc)
      | None => {[dateKey]} ∪ acc
      end
    else acc.
Proof. reflexivity. Qed.

(** The fuel [expandDates] gives the loop is enough: more fuel changes
    nothing, so the loop always ends on its own test. *)
Lemma expandLoop_fuel (n : nat) :
  forall s e acc (k : nat),
    (e - s) / JsDate.msPerDay + 1 <= Z.of_nat n ->
    expandLoop tza (n + k) s e acc = expandLoop tza n s e acc.
Proof.
  induction n as [|n IH]; intros s e acc k Hn.
  - assert (e < s).
    { unfold JsDate.msPerDay in Hn. Z.to_euclidean_division_equations; lia. }
    destruct k; [done|]. change (0 + S k)%nat with (S k).
    rewrite expandLoop_S. destruct (Z.leb_spec s e); [lia | done].
  - change (S n + k)%nat with (S (n + k)). rewrite !expandLoop_S.
    destruct (Z.leb_spec s e); [|done].
    cbv zeta. rewrite setDate_next_day. apply IH.
    unfold JsDate.msPerDay in *. Z.to_euclidean_division_equations; lia.
Qed.

End LoaderFacts.

(** ** Facts about the reconciler *)
Section KeyedPass.

Context {R : Type} (key : R -> option string) (upd : DayData -> R -> DayData).
Variables wfh od : gset string.

Lemma entry_insert_eq (m : ProcessedData) k d :
  entry wfh od (<[k := d]> m) k = d.
Proof. unfold entry. by rewrite lookup_insert_eq. Qed.

Lemma keyedPass_lookup (rs : list R) :
  forall (m : ProcessedData) (k : string),
    fold_left (keyedStep key upd wfh od) rs m !! k =
      match filter (fun r => key r = Some k) rs with
      | [] => m !! k
      | on => Some (fold_left upd on (entry wfh od m k))
      end.
Proof.
  induction rs as [|r rs IH]; intros m k; simpl; [done|].
  rewrite IH, filter_cons. 
  assert (Hstep : keyedStep key upd wfh od m r = match key r with
    | None => m | Some k0 => <[k0 := upd (entry wfh od m k0) r]> m end) by done.
  rewrite Hstep. clear Hstep.
  destruct (decide (key r = Some k)) as [Hk|Hk].
  - rewrite Hk, entry_insert_eq, lookup_insert_eq.
    by destruct (filter _ rs).
  - destruct (key r) as [k'|]; [|done].
    assert (k' <> k) by congruence.
    unfold entry. by rewrite lookup_insert_ne.
Qed.

End KeyedPass.

Section ReconcilerFacts.

Variable tza : Z.
Variables wfh od : gset string.

Lemma applyCheckin_fold (cs : list EmployeeCheckin) :
  forall d,
    let d' := fold_left applyCheckin cs d in
    checkIns d' = checkIns d ++ insOf cs
    /\ checkOuts d' = checkOuts d ++ outsOf cs
    /\ status d' = status d
    /\ attendanceStatus d' = attendanceStatus d.
Proof.
  unfold insOf, outsOf.
  induction cs as [|r cs IH]; intros d; simpl.
  - by rewrite !app_nil_r.
  - destruct (IH (applyCheckin d r)) as (Hi & Ho & Hs & Ha).
    rewrite Hi, Ho, Hs, Ha. clear IH Hi Ho Hs Ha.
    rewrite !filter_cons. unfold applyCheckin.
    destruct (decide (log_type r = "IN")) as [E|E].
    + rewrite (proj2 (String.eqb_eq _ _) E).
      rewrite (decide_False (P := log_type r = "OUT")) by (rewrite E; done).
      simpl. by rewrite <- app_assoc.
    + rewrite (proj2 (String.eqb_neq _ _) E).
      destruct (decide (log_type r = "OUT")) as [E'|E'].
      * rewrite (proj2 (String.eqb_eq _ _) E'). simpl.
        by rewrite <- app_assoc.
      * by rewrite (proj2 (String.eqb_neq _ _) E').
Qed.

Lemma applyAttendance_events d r :
  checkIns (applyAttendance d r) = checkIns d
  /\ checkOuts (applyAttendance d r) = checkOuts d
  /\ attendanceStatus (applyAttendance d r) = normalizeStatus (att_status r).
Proof. unfold applyAttendance. by destruct (statusOfWord _). Qed.

Lemma applyAttendance_status d r :
  status (applyAttendance d r)
  = default (status d) (statusOfWord (normalizeStatus (att_status r))).
Proof. unfold applyAttendance. by destruct (statusOfWord _). Qed.

Lemma applyAttendance_fold (ats : list Attendance) d :
  let d' := fold_left applyAttendance ats d in
  checkIns d' = checkIns d
  /\ checkOuts d' = checkOuts d
  /\ attendanceStatus d'
     = from_option (fun r => normalizeStatus (att_status r))
                   (attendanceStatus d) (last ats)
  /\ status d'
     = from_option
         (fun r => default (status (fold_left applyAttendance (removelast ats) d))
                           (statusOfWord (normalizeStatus (att_status r))))
         (status d) (last ats).
Proof.
  induction ats as [|r ats IH] using rev_ind; simpl; [done|].
  rewrite fold_left_app, last_snoc, removelast_last. simpl.
  destruct IH as (Hi & Ho & _ & _).
  destruct (applyAttendance_events (fold_left applyAttendance ats d) r)
    as (Hi' & Ho' & Ha').
  rewrite Hi', Ho', Ha', applyAttendance_status. auto.
Qed.

(** Records whose word is none of the five leave the status alone. *)
Lemma applyAttendance_fold_unknown (ats : list Attendance) d :
  Forall (fun r => statusOfWord (normalizeStatus (att_status r)) = None) ats ->
  status (fold_left applyAttendance ats d) = status d.
Proof.
  intros H. revert d. induction H as [|r ats Hr _ IH]; intros d; simpl; [done|].
  by rewrite IH, applyAttendance_status, Hr.
Qed.

(** The day the reconciler returns for a date key: the fresh entry, taken
    through the date's Attendance records, then through its check-events,
    then through the final pass. *)
Lemma processAttendanceData_lookup records atts k :
  processAttendanceData tza wfh od records atts !! k =
    match attendanceOn k atts, checkinsOn tza k records with
    | [], [] => None
    | ats, cs =>
        Some (finalStatus
                (fold_left applyCheckin cs
                   (fold_left applyAttendance ats (newDay wfh od k))))
    end.
Proof.
  unfold processAttendanceData, attendanceOn, checkinsOn.
  rewrite lookup_fmap.
  pose proof (keyedPass_lookup (checkinDateKey tza) applyCheckin wfh od records)
    as Hc.
  pose proof (keyedPass_lookup attendanceKey applyAttendance wfh od atts) as Ha.
  unfold keyedStep in Hc, Ha. fold (checkinStep tza wfh od) in Hc.
  fold (attendanceStep wfh od) in Ha.
  rewrite Hc. unfold entry. rewrite Ha, lookup_empty. simpl.
  destruct (filter _ atts) as [|a ats]; destruct (filter _ records) as [|c cs];
    done.
Qed.

End ReconcilerFacts.

Section ReconcilerResults.

Variable tza : Z.
Variables wfh od : gset string.

Lemma finalStatus_fields d :
  checkIns (finalStatus d) = checkIns d
  /\ checkOuts (finalStatus d) = checkOuts d
  /\ attendanceStatus (finalStatus d) = attendanceStatus d.
Proof.
  unfold finalStatus.
  repeat match goal with |- context [if ?b then _ else _] => destruct b end;
    done.
Qed.

Lemma finalStatus_status d :
  isLeaveWord (attendanceStatus d) = false ->
  status (finalStatus d) =
    match checkIns d, checkOuts d with
    | [], [] => if truthyN (attendanceStatus d) then status d else absent
    | _ :: _, _ :: _ =>
        if (length (checkIns d) <=? length (checkOuts d))%nat
        then present else incomplete
    | _, _ => incomplete
    end.
Proof.
  intros Hw. unfold finalStatus. rewrite Hw, andb_false_r.
  destruct (checkIns d) as [|i ins], (checkOuts d) as [|o outs]; simpl;
    try done.
  - by destruct (truthyN _).
  - by destruct (length ins <=? length outs)%nat.
Qed.

(** What the day of date key [k] is made of. *)
Lemma day_facts records atts k d :
  processAttendanceData tza wfh od records atts !! k = Some d ->
  exists d0,
    d = finalStatus d0
    /\ checkIns d0 = insOf (checkinsOn tza k records)
    /\ checkOuts d0 = outsOf (checkinsOn tza k records)
    /\ attendanceStatus d0
       = from_option (fun r => normalizeStatus (att_status r)) JsNull
                     (last (attendanceOn k atts))
    /\ status d0
       = status (fold_left applyAttendance (attendanceOn k atts)
                           (newDay wfh od k)).
Proof.
  rewrite processAttendanceData_lookup. intros H.
  exists (fold_left applyCheckin (checkinsOn tza k records)
            (fold_left applyAttendance (attendanceOn k atts) (newDay wfh od k))).
  destruct (applyCheckin_fold (checkinsOn tza k records)
              (fold_left applyAttendance (attendanceOn k atts) (newDay wfh od k)))
    as (Hi & Ho & Hs & Ha).
  destruct (applyAttendance_fold (attendanceOn k atts) (newDay wfh od k))
    as (Hi' & Ho' & Ha' & _).
  rewrite Hi, Ho, Hs, Ha, Hi', Ho', Ha'. simpl.
  split; [|done].
  destruct (attendanceOn k atts), (checkinsOn tza k records); congruence.
Qed.

Lemma day_exists records atts k :
  attendanceOn k atts <> [] \/ checkinsOn tza k records <> [] ->
  is_Some (processAttendanceData tza wfh od records atts !! k).
Proof.
  rewrite processAttendanceData_lookup.
  destruct (attendanceOn k atts), (checkinsOn tza k records); intros [?|?];
    done.
Qed.

Lemma isLeaveWord_statusOfWord a :
  isLeaveWord a = true ->
  statusOfWord a = Some on_leave \/ statusOfWord a = Some half_day
  \/ statusOfWord a = Some work_from_home.
Proof.
  destruct a as [| |s]; simpl; try done.
  destruct (String.eqb s "on_leave"); [auto|].
  destruct (String.eqb s "half_day"); [auto|].
  destruct (String.eqb s "work_from_home"); [auto|done].
Qed.

End ReconcilerResults.

(** C2, as stated, fails: March 2024 holds a full day of check events on
    the 10th and nothing for the 11th. The 11th has no Attendance record
    and no check event, yet it does not resolve to absent: the reconciler
    makes no day for it at all, and the cell of the 11th is drawn without
    data. *)
Lemma C2_day_without_records_has_no_status :
  let result := processAttendanceData Sample.IST ∅ ∅ Sample.fullDay [] in
  attendanceOn "2024-03-11" [] = []
  /\ checkinsOn Sample.IST "2024-03-11" Sample.fullDay = []
  /\ result !! "2024-03-11" = None
  /\ ~ (exists d, result !! "2024-03-11" = Some d /\ status d = absent)
  /\ data (dayCell 2024 2 result 11) = None.
Proof.
  assert (H : processAttendanceData Sample.IST ∅ ∅ Sample.fullDay []
              !! "2024-03-11" = None) by (vm_compute; reflexivity).
  cbv zeta.
  split; [reflexivity|]. split; [vm_compute; reflexivity|].
  split; [exact H|]. split.
  - intros (d & Hd & _). rewrite H in Hd. discriminate Hd.
  - vm_compute. reflexivity.
Qed.

(** C2. Take a date key whose Attendance record (the last one listed for
    the date, should there be several) does not carry the word on_leave,
    half_day or work_from_home. When neither an Attendance record nor a
    check event is filed under the key, the result has no day for it.
    When one is, the result has a day for the key: its check-ins and
    check-outs are the IN and OUT events filed under the key, and its
    resolved status follows from their counts: present when both exist and
    the check-outs are at least as many as the check-ins; incomplete when
    both exist with fewer check-outs, or only check-ins, or only check-outs
    exist; absent when neither exists and the day carries no attendance
    word (the day carries none, in particular, when only check events are
    filed under the key). *)
Theorem C2_status_derived_from_check_events
    tza wfh od records atts k :
  (forall r, last (attendanceOn k atts) = Some r ->
             isLeaveWord (normalizeStatus (att_status r)) = false) ->
  (attendanceOn k atts = [] -> checkinsOn tza k records = [] ->
   processAttendanceData tza wfh od records atts !! k = None)
  /\ (attendanceOn k atts <> [] \/ checkinsOn tza k records <> [] ->
      exists d,
        processAttendanceData tza wfh od records atts !! k = Some d
        /\ checkIns d = insOf (checkinsOn tza k records)
        /\ checkOuts d = outsOf (checkinsOn tza k records)
        /\ (checkIns d <> [] -> checkOuts d <> [] ->
            (length (checkIns d) <= length (checkOuts d))%nat ->
            status d = present)
        /\ (checkIns d <> [] -> checkOuts d <> [] ->
            (length (checkOuts d) < length (checkIns d))%nat ->
            status d = incomplete)
        /\ (checkIns d <> [] -> checkOuts d = [] -> status d = incomplete)
        /\ (checkIns d = [] -> checkOuts d <> [] -> status d = incomplete)
        /\ (checkIns d = [] -> checkOuts d = [] ->
            truthyN (attendanceStatus d) = false -> status d = absent)
        /\ (attendanceOn k atts = [] -> attendanceStatus d = JsNull)).
Proof.
  intros Hlast. split.
  { intros Ha Hc. rewrite processAttendanceData_lookup, Ha, Hc. reflexivity. }
  intros Hsome.
  destruct (day_exists tza wfh od records atts k Hsome) as [d Hd].
  exists d. split; [exact Hd|].
  destruct (day_facts tza wfh od records atts k d Hd)
    as (d0 & -> & Hi & Ho & Ha & _).
  destruct (finalStatus_fields d0) as (Fi & Fo & Fa).
  assert (Hw : isLeaveWord (attendanceStatus d0) = false).
  { rewrite Ha. destruct (last (attendanceOn k atts)) as [r|] eqn:E; simpl;
      [by apply Hlast | done]. }
  rewrite Fi, Fo, Fa, (finalStatus_status d0 Hw), <- Hi, <- Ho.
  split_and!; try done.
  - intros H1 H2 H3. destruct (checkIns d0), (checkOuts d0); try done.
    by rewrite (proj2 (Nat.leb_le _ _) H3).
  - intros H1 H2 H3. destruct (checkIns d0), (checkOuts d0); try done.
    by rewrite (proj2 (Nat.leb_gt _ _) H3).
  - intros H1 H2. by destruct (checkIns d0), (checkOuts d0).
  - intros H1 H2. by destruct (checkIns d0), (checkOuts d0).
  - intros H1 H2 H3. by rewrite H1, H2, H3.
  - intros H. by rewrite Ha, H.
Qed.

Lemma statusOfWord_truthy a s : statusOfWord a = Some s -> truthyN a = true.
Proof.
  destruct a as [| |w]; simpl; try done.
  destruct (String.eqb_spec w "on_leave") as [->|_]; [done|].
  destruct (String.eqb_spec w "half_day") as [->|_]; [done|].
  destruct (String.eqb_spec w "work_from_home") as [->|_]; [done|].
  destruct (String.eqb_spec w "present") as [->|_]; [done|].
  destruct (String.eqb_spec w "absent") as [->|_]; done.
Qed.

Lemma C2_witness :
  (exists d,
     processAttendanceData Sample.IST ∅ ∅ Sample.fullDay [] !! "2024-03-10"
     = Some d
     /\ status d = present)
  /\ (exists d,
        processAttendanceData Sample.IST ∅ ∅
            [Sample.checkin "2024-03-12 09:00:00" ""] [] !! "2024-03-12"
        = Some d
        /\ status d = absent).
Proof.
  split.
  - destruct (C2_status_derived_from_check_events
                Sample.IST ∅ ∅ Sample.fullDay [] "2024-03-10")
      as (_ & Hday).
    + intros r Hr. vm_compute in Hr. discriminate Hr.
    + destruct Hday as (d & Hd & Hi & Ho & Hp & _).
      * right. vm_compute. discriminate.
      * exists d. split; [exact Hd|].
        apply Hp.
        -- rewrite Hi. vm_compute. discriminate.
        -- rewrite Ho. vm_compute. discriminate.
        -- rewrite Hi, Ho. vm_compute. lia.
  - destruct (C2_status_derived_from_check_events
                Sample.IST ∅ ∅ [Sample.checkin "2024-03-12 09:00:00" ""] []
                "2024-03-12")
      as (_ & Hday).
    + intros r Hr. vm_compute in Hr. discriminate Hr.
    + destruct Hday as (d & Hd & Hi & Ho & _ & _ & _ & _ & Habs & Hnull).
      * right. vm_compute. discriminate.
      * exists d. split; [exact Hd|].
        apply Habs.
        -- rewrite Hi. vm_compute. reflexivity.
        -- rewrite Ho. vm_compute. reflexivity.
        -- rewrite Hnull by reflexivity. reflexivity.
Defined.

(** C1, as stated, fails: an official Absent record for 2024-03-10 together
    with one check-in and no check-out on that date resolves to incomplete,
    not to absent. *)
Lemma C1_absent_record_with_stray_checkin :
  let atts := [Sample.attendance "2024-03-10" "Absent"] in
  exists r d,
    r ∈ atts /\ attendance_date r = Some "2024-03-10"
    /\ normalizeStatus (att_status r) = JsStr "absent"
    /\ processAttendanceData Sample.IST ∅ ∅ Sample.strayCheckin atts
         !! "2024-03-10" = Some d
    /\ status d = incomplete
    /\ status d <> absent.
Proof.
  intros atts. eexists _, _. split; [apply list_elem_of_here|].
  repeat (split; [vm_compute; reflexivity|]). vm_compute. discriminate.
Qed.

(** C1, amended. For a date whose Attendance record (the last one listed for
    the date) says Present or Absent, the date has a day in the result, and:
    when no check-in and no check-out is filed under the date, the resolved
    status is the record's; when there are check-events, the resolved
    status is the one their counts give (present when both kinds exist and
    the check-outs are at least as many as the check-ins, incomplete
    otherwise), whatever the record says. *)
Theorem C1_present_absent_record_yields_to_check_events
    tza wfh od records atts k r s :
  last (attendanceOn k atts) = Some r ->
  statusOfWord (normalizeStatus (att_status r)) = Some s ->
  s = present \/ s = absent ->
  exists d,
    processAttendanceData tza wfh od records atts !! k = Some d
    /\ checkIns d = insOf (checkinsOn tza k records)
    /\ checkOuts d = outsOf (checkinsOn tza k records)
    /\ (checkIns d = [] -> checkOuts d = [] -> status d = s)
    /\ (checkIns d <> [] \/ checkOuts d <> [] ->
        status d =
          if bool_decide (checkIns d <> [] /\ checkOuts d <> []
                          /\ (length (checkIns d) <= length (checkOuts d))%nat)
          then present else incomplete).
Proof.
  intros Hlast Hword Hs.
  assert (Hne : attendanceOn k atts <> []).
  { intros E. by rewrite E in Hlast. }
  destruct (day_exists tza wfh od records atts k (or_introl Hne)) as [d Hd].
  exists d. split; [done|].
  destruct (day_facts tza wfh od records atts k d Hd)
    as (d0 & -> & Hi & Ho & Ha & Hst).
  destruct (finalStatus_fields d0) as (Fi & Fo & _).
  destruct (applyAttendance_fold (attendanceOn k atts) (newDay wfh od k))
    as (_ & _ & _ & Hst').
  rewrite Hlast in Ha, Hst'. simpl in Ha, Hst'. rewrite Hword in Hst'.
  simpl in Hst'. rewrite Hst' in Hst. clear Hst'.
  assert (Hw : isLeaveWord (attendanceStatus d0) = false).
  { destruct (isLeaveWord (attendanceStatus d0)) eqn:E; [|done].
    apply isLeaveWord_statusOfWord in E. rewrite Ha, Hword in E.
    destruct Hs as [-> | ->], E as [E|[E|E]]; discriminate E. }
  assert (Ht : truthyN (attendanceStatus d0) = true).
  { rewrite Ha. by eapply statusOfWord_truthy. }
  rewrite Fi, Fo, (finalStatus_status d0 Hw), Ht, <- Hi, <- Ho.
  split_and!; [done | done | |].
  - intros H1 H2. by rewrite H1, H2.
  - intros H. destruct (checkIns d0) as [|i ins], (checkOuts d0) as [|o outs].
    + by destruct H.
    + rewrite bool_decide_eq_false_2; [done | intros (? & _); done].
    + rewrite bool_decide_eq_false_2; [done | intros (_ & ? & _); done].
    + destruct (Nat.leb_spec (length (i :: ins)) (length (o :: outs))).
      * by rewrite bool_decide_eq_true_2.
      * rewrite bool_decide_eq_false_2; [done | intros (_ & _ & ?); lia].
Qed.

Lemma C1_witness :
  exists d,
    processAttendanceData Sample.IST ∅ ∅ []
        [Sample.attendance "2024-03-10" "Absent"] !! "2024-03-10" = Some d
    /\ status d = absent.
Proof.
  destruct (C1_present_absent_record_yields_to_check_events
              Sample.IST ∅ ∅ [] [Sample.attendance "2024-03-10" "Absent"]
              "2024-03-10" (Sample.attendance "2024-03-10" "Absent") absent)
    as (d & Hd & Hi & Ho & Hnone & _).
  - vm_compute. reflexivity.
  - vm_compute. reflexivity.
  - right. reflexivity.
  - exists d. split; [exact Hd|]. apply Hnone.
    + rewrite Hi. reflexivity.
    + rewrite Ho. reflexivity.
Defined.

(** C9, as stated, fails: a record with the unrecognised status Holiday on
    a date that also has a check-in and a check-out resolves to present. *)
Lemma C9_unrecognised_word_with_check_events :
  let atts := [Sample.attendance "2024-03-10" "Holiday"] in
  exists r d,
    r ∈ atts /\ attendance_date r = Some "2024-03-10"
    /\ normalizeStatus (att_status r) = JsStr "holiday"
    /\ statusOfWord (normalizeStatus (att_status r)) = None
    /\ processAttendanceData Sample.IST ∅ ∅ Sample.fullDay atts
         !! "2024-03-10" = Some d
    /\ status d = present
    /\ status d <> absent.
Proof.
  intros atts. eexists _, _. split; [apply list_elem_of_here|].
  repeat (split; [vm_compute; reflexivity|]). vm_compute. discriminate.
Qed.

(** C9, amended. For a date all of whose Attendance records carry a status
    that, once normalised, is none of on_leave, half_day, work_from_home,
    present and absent (or carry no status at all), the date has a day in
    the result, and: when no check-in and no check-out is filed under the
    date, the resolved status is absent; when there are check-events, the
    resolved status is the one their counts give. *)
Theorem C9_unrecognised_word_falls_through
    tza wfh od records atts k :
  attendanceOn k atts <> [] ->
  Forall (fun r => statusOfWord (normalizeStatus (att_status r)) = None)
         (attendanceOn k atts) ->
  exists d,
    processAttendanceData tza wfh od records atts !! k = Some d
    /\ checkIns d = insOf (checkinsOn tza k records)
    /\ checkOuts d = outsOf (checkinsOn tza k records)
    /\ (checkIns d = [] -> checkOuts d = [] -> status d = absent)
    /\ (checkIns d <> [] \/ checkOuts d <> [] ->
        status d =
          if bool_decide (checkIns d <> [] /\ checkOuts d <> []
                          /\ (length (checkIns d) <= length (checkOuts d))%nat)
          then present else incomplete).
Proof.
  intros Hne Hall.
  destruct (day_exists tza wfh od records atts k (or_introl Hne)) as [d Hd].
  exists d. split; [done|].
  destruct (day_facts tza wfh od records atts k d Hd)
    as (d0 & -> & Hi & Ho & Ha & Hst).
  destruct (finalStatus_fields d0) as (Fi & Fo & _).
  rewrite (applyAttendance_fold_unknown _ _ Hall) in Hst. simpl in Hst.
  assert (Hw : isLeaveWord (attendanceStatus d0) = false).
  { destruct (isLeaveWord (attendanceStatus d0)) eqn:E; [|done].
    apply isLeaveWord_statusOfWord in E. rewrite Ha in E.
    destruct (last (attendanceOn k atts)) as [r|] eqn:El; simpl in E.
    - apply last_Some_elem_of in El.
      rewrite Forall_forall in Hall. rewrite (Hall r El) in E.
      destruct E as [E|[E|E]]; discriminate E.
    - destruct E as [E|[E|E]]; discriminate E. }
  rewrite Fi, Fo, (finalStatus_status d0 Hw), Hst, <- Hi, <- Ho.
  split_and!; [done | done | |].
  - intros H1 H2. rewrite H1, H2. by destruct (truthyN _).
  - intros H. destruct (checkIns d0) as [|i ins], (checkOuts d0) as [|o outs].
    + by destruct H.
    + rewrite bool_decide_eq_false_2; [done | intros (? & _); done].
    + rewrite bool_decide_eq_false_2; [done | intros (_ & ? & _); done].
    + destruct (Nat.leb_spec (length (i :: ins)) (length (o :: outs))).
      * by rewrite bool_decide_eq_true_2.
      * rewrite bool_decide_eq_false_2; [done | intros (_ & _ & ?); lia].
Qed.

Lemma C9_witness :
  exists d,
    processAttendanceData Sample.IST ∅ ∅ []
        [Sample.attendance "2024-03-10" "Holiday"] !! "2024-03-10" = Some d
    /\ status d = absent.
Proof.
  destruct (C9_unrecognised_word_falls_through
              Sample.IST ∅ ∅ [] [Sample.attendance "2024-03-10" "Holiday"]
              "2024-03-10")
    as (d & Hd & Hi & Ho & Hnone & _).
  - vm_compute. discriminate.
  - replace (attendanceOn _ _) with [Sample.attendance "2024-03-10" "Holiday"]
      by (vm_compute; reflexivity).
    constructor; [vm_compute; reflexivity | constructor].
  - exists d. split; [exact Hd|]. apply Hnone.
    + rewrite Hi. reflexivity.
    + rewrite Ho. reflexivity.
Defined.

(** C3. The reconciler files a check-event under the UTC date of its time
    stamp, not under its local date: on a host at UTC+05:30 a check-in at
    02:00 local time on 2024-03-10 is parsed as local time, its local date
    is 2024-03-10, and it is filed under the key 2024-03-09, the day before;
    the key 2024-03-10, under which the grid looks the day up, stays
    empty. *)
Theorem C3_checkin_filed_under_utc_date :
  let tm := "2024-03-10 02:00:00" in
  let result := processAttendanceData Sample.IST ∅ ∅ Sample.nightCheckin [] in
  (exists t, JsDate.parse Sample.IST tm = Some t
             /\ JsDate.dateKeyOf (JsDate.getFullYear Sample.IST t)
                                 (JsDate.getMonth Sample.IST t)
                                 (JsDate.getDate Sample.IST t) = "2024-03-10")
  /\ checkinDateKey Sample.IST (Sample.checkin tm "IN") = Some "2024-03-09"
  /\ checkIns <$> result !! "2024-03-09" = Some [tm]
  /\ result !! "2024-03-10" = None.
Proof.
  intros tm result. split.
  { eexists. split; [vm_compute; reflexivity | vm_compute; reflexivity]. }
  split; [vm_compute; reflexivity|].
  split; [vm_compute; reflexivity | vm_compute; reflexivity].
Qed.

Section GateFacts.

Variable tza : Z.

(** East of Greenwich (offsets from 0 up to, not including, a day) the
    gate is the inclusive window of the claim: the date key's day number
    lies between today's local day number minus six and today's. *)
Lemma isWithinLast7Days_east now key y m d :
  0 <= tza < JsDate.msPerDay ->
  JsDate.parseDateFields key = Some (y, m, d, EmptyString) ->
  isWithinLast7Days tza now key
  = bool_decide (JsDate.Day (JsDate.LocalTime tza now) - 6
                 <= JsDate.MakeDay y (m - 1) d
                 <= JsDate.Day (JsDate.LocalTime tza now)).
Proof.
  intros Htza Hkey. unfold isWithinLast7Days, JsDate.parse.
  rewrite Hkey. simpl.
  set (D := JsDate.MakeDay y (m - 1) d).
  set (T := JsDate.Day (JsDate.LocalTime tza now)).
  assert (HD : JsDate.Day (JsDate.LocalTime tza (JsDate.MakeDate D 0)) = D).
  { unfold JsDate.Day, JsDate.LocalTime, JsDate.MakeDate, JsDate.msPerDay in *.
    Z.to_euclidean_division_equations; lia. }
  rewrite HD.
  assert (Hdiff : (JsDate.UTC tza (JsDate.MakeDate T (JsDate.MakeTime 0 0 0 0))
                   - JsDate.UTC tza (JsDate.MakeDate D (JsDate.MakeTime 0 0 0 0)))
                  / (1000 * 60 * 60 * 24) = T - D).
  { unfold JsDate.UTC, JsDate.MakeDate, JsDate.MakeTime, JsDate.msPerDay.
    Z.to_euclidean_division_equations; lia. }
  rewrite Hdiff.
  destruct (decide (T - 6 <= D <= T)) as [H|H].
  - rewrite bool_decide_eq_true_2 by done.
    apply andb_true_intro; split; apply Z.leb_le; lia.
  - rewrite bool_decide_eq_false_2 by done.
    apply andb_false_iff.
    destruct (Z.leb_spec 0 (T - D)); [right|by left].
    apply Z.leb_gt. lia.
Qed.

(** West of Greenwich (offsets from minus a day up to, not including, 0)
    the date key lands on the local day before, and the window the gate
    implements runs from five days ago to tomorrow. *)
Lemma isWithinLast7Days_west now key y m d :
  - JsDate.msPerDay <= tza < 0 ->
  JsDate.parseDateFields key = Some (y, m, d, EmptyString) ->
  isWithinLast7Days tza now key
  = bool_decide (JsDate.Day (JsDate.LocalTime tza now) - 5
                 <= JsDate.MakeDay y (m - 1) d
                 <= JsDate.Day (JsDate.LocalTime tza now) + 1).
Proof.
  intros Htza Hkey. unfold isWithinLast7Days, JsDate.parse.
  rewrite Hkey. simpl.
  set (D := JsDate.MakeDay y (m - 1) d).
  set (T := JsDate.Day (JsDate.LocalTime tza now)).
  assert (HD : JsDate.Day (JsDate.LocalTime tza (JsDate.MakeDate D 0)) = D - 1).
  { unfold JsDate.Day, JsDate.LocalTime, JsDate.MakeDate, JsDate.msPerDay in *.
    Z.to_euclidean_division_equations; lia. }
  rewrite HD.
  assert (Hdiff : (JsDate.UTC tza (JsDate.MakeDate T (JsDate.MakeTime 0 0 0 0))
                   - JsDate.UTC tza (JsDate.MakeDate (D - 1)
                                                     (JsDate.MakeTime 0 0 0 0)))
                  / (1000 * 60 * 60 * 24) = T - D + 1).
  { unfold JsDate.UTC, JsDate.MakeDate, JsDate.MakeTime, JsDate.msPerDay.
    Z.to_euclidean_division_equations; lia. }
  rewrite Hdiff.
  destruct (decide (T - 5 <= D <= T + 1)) as [H|H].
  - rewrite bool_decide_eq_true_2 by done.
    apply andb_true_intro; split; apply Z.leb_le; lia.
  - rewrite bool_decide_eq_false_2 by done.
    apply andb_false_iff.
    destruct (Z.leb_spec 0 (T - D + 1)); [right|by left].
    apply Z.leb_gt. lia.
Qed.

(** A tap outside the window changes nothing and shows nothing. *)
Lemma handleDayClick_outside props now day dayData st :
  isWithinLast7Days tza now
    (JsDate.dateKeyOf (JsDate.getFullYear tza (currentMonth props))
                      (JsDate.getMonth tza (currentMonth props)) day) = false ->
  handleDayClick tza props now day dayData st = (st, []).
Proof. intros H. unfold handleDayClick. by rewrite H. Qed.

End GateFacts.

(** C4. On a host west of Greenwich the gate is off by one day. At
    UTC-05:00, with today = 2024-03-15 (ten in the morning, local time) and
    the calendar showing March 2024: the date key 2024-03-09, six days
    before today, is not editable and a tap on day 9 changes nothing;
    today's own key 2024-03-15 is normalised to local midnight of
    2024-03-14; the date key 2024-03-16, tomorrow, is editable and a tap on
    day 16 opens the dialog. The key is read as midnight UTC, which is the
    evening before in local time, and only then set to local midnight. *)
Theorem C4_gate_west_of_greenwich :
  let tza := Sample.EST in
  let now := SampleUI.localHour tza 2024 2 15 10 in
  let props := SampleUI.propsFor tza 2024 2 in
  JsDate.dateKeyOf (JsDate.getFullYear tza now) (JsDate.getMonth tza now)
                   (JsDate.getDate tza now) = "2024-03-15"
  /\ isWithinLast7Days tza now "2024-03-09" = false
  /\ (forall dayData st, handleDayClick tza props now 9 dayData st = (st, []))
  /\ JsDate.setHoursZero tza (JsDate.parse tza "2024-03-15")
     = Some (SampleUI.localHour tza 2024 2 14 0)
  /\ isWithinLast7Days tza now "2024-03-16" = true
  /\ (forall dayData st,
        showDialog (fst (handleDayClick tza props now 16 dayData st)) = true).
Proof.
  intros tza now props.
  split; [vm_compute; reflexivity|].
  split; [vm_compute; reflexivity|].
  split.
  { intros dayData st. apply handleDayClick_outside. vm_compute. reflexivity. }
  split; [vm_compute; reflexivity|].
  split; [vm_compute; reflexivity|].
  intros dayData st. unfold handleDayClick.
  replace (isWithinLast7Days _ _ _) with true by (vm_compute; reflexivity).
  reflexivity.
Qed.

(** Without a rejection the joined promise is fulfilled with the four
    lists. *)
Lemma promiseAll_fulfilled net :
  rejection (checkinList net) = None ->
  rejection (attendanceList net) = None ->
  rejection (wfhList net) = None ->
  rejection (odList net) = None ->
  exists a b c d,
    value (checkinList net) = Some a /\ value (attendanceList net) = Some b
    /\ value (wfhList net) = Some c /\ value (odList net) = Some d
    /\ promiseAll net = Fulfilled (a, b, c, d).
Proof.
  unfold promiseAll, rejection, value.
  destruct (outcome (checkinList net)), (outcome (attendanceList net)),
    (outcome (wfhList net)), (outcome (odList net)); try done.
  intros _ _ _ _. simpl. eauto 10.
Qed.

(** C6. When at least one of the four list requests of a refresh cycle is
    rejected, [fetchMonthlyRecords] leaves the whole state as it was (no
    records, sets or processed data are stored) and, after the four
    requests, raises exactly one alert, titled Error, whose text is
    "Failed to fetch calendar data: " followed by the message of a rejected
    request's error (or by "Unknown error" when the rejection value is not
    an Error object). [onRefresh] then ends with the same data on display. *)
Theorem C6_fetch_failure_skips_reconciliation tza props net st employee :
  currentEmployee props = Some employee ->
  (is_Some (rejection (checkinList net)) \/ is_Some (rejection (attendanceList net))
   \/ is_Some (rejection (wfhList net)) \/ is_Some (rejection (odList net))) ->
  exists error,
    (outcome (checkinList net) = Rejected error
     \/ outcome (attendanceList net) = Rejected error
     \/ outcome (wfhList net) = Rejected error
     \/ outcome (odList net) = Rejected error)
    /\ fetchMonthlyRecords tza props net st
       = (st, listRequests
                ++ [Alert "Error" ("Failed to fetch calendar data: "
                                     +:+ errorMessage error)])
    /\ fst (onRefresh tza props net st)
       = setRefreshing false (setRefreshing true st)
    /\ processedData (fst (onRefresh tza props net st)) = processedData st.
Proof.
  intros Hemp Hrej.
  assert (Hall : exists error,
             (outcome (checkinList net) = Rejected error
              \/ outcome (attendanceList net) = Rejected error
              \/ outcome (wfhList net) = Rejected error
              \/ outcome (odList net) = Rejected error)
             /\ promiseAll net = Rejected error).
  { unfold promiseAll, rejection, value in *.
    destruct (outcome (checkinList net)) as [a|ea];
    destruct (outcome (attendanceList net)) as [b|eb];
    destruct (outcome (wfhList net)) as [c|ec];
    destruct (outcome (odList net)) as [d|ed]; simpl in *;
    try (exfalso; destruct Hrej as [[? H]|[[? H]|[[? H]|[? H]]]]; discriminate H);
    repeat match goal with
           | |- context [if ?b then _ else _] => destruct b; simpl
           end;
    eexists; (split; [|reflexivity]); auto. }
  destruct Hall as (error & Hsrc & Hall).
  exists error. split; [done|].
  assert (Hfetch : forall s, fetchMonthlyRecords tza props net s
                   = (s, listRequests
                           ++ [Alert "Error" ("Failed to fetch calendar data: "
                                                +:+ errorMessage error)])).
  { intros s. unfold fetchMonthlyRecords. by rewrite Hemp, Hall. }
  split; [apply Hfetch|].
  unfold onRefresh. rewrite Hfetch. done.
Qed.

Lemma C6_witness :
  fetchMonthlyRecords Sample.IST (SampleUI.propsFor Sample.IST 2024 2)
                      (SampleUI.attendanceDown "Network Error") SampleUI.initial
  = (SampleUI.initial,
     listRequests
       ++ [Alert "Error" "Failed to fetch calendar data: Network Error"]).
Proof.
  destruct (C6_fetch_failure_skips_reconciliation
              Sample.IST (SampleUI.propsFor Sample.IST 2024 2)
              (SampleUI.attendanceDown "Network Error") SampleUI.initial
              SampleUI.employee)
    as (error & Hsrc & Hfetch & _).
  - reflexivity.
  - right. left. eexists. reflexivity.
  - rewrite Hfetch.
    destruct Hsrc as [H|[H|[H|H]]]; simpl in H; try discriminate H.
    injection H as <-. reflexivity.
Defined.

(** C7. When the text of the time field does not match the pattern
    (one or two digits, a colon, two digits, optional blanks, AM or PM in
    any case), [handleSubmitEntry] returns the state unchanged and its only
    effect is one alert with a validation message: no request goes to the
    backend. The text 25:99 is such a text. *)
Theorem C7_malformed_time_rejected tza props net st :
  matchEntryTime (entryTime st) = None ->
  matchEntryTime "25:99" = None
  /\ exists message,
      handleSubmitEntry tza props net st = (st, [Alert "Error" message])
      /\ existsb isNetworkCall (snd (handleSubmitEntry tza props net st)) = false
      /\ (message = "Please enter a valid time"
          \/ message
             = "Please enter time in format HH:MM AM/PM (e.g., 09:30 AM or 05:30 PM)").
Proof.
  intros Hno. split; [reflexivity|].
  unfold handleSubmitEntry. rewrite Hno.
  destruct (JsString.truthy (entryTime st)), (selectedDate st) as [k|],
    (currentEmployee props), (allowedLogType st);
    try (eexists; split; [reflexivity|]; split; [reflexivity|]; auto; fail).
  destruct (negb (JsString.truthy k));
    eexists; (split; [reflexivity|]); (split; [reflexivity|]); auto.
Qed.

Lemma C7_witness :
  let result :=
    handleSubmitEntry Sample.IST (SampleUI.propsFor Sample.IST 2024 2)
                      (SampleUI.attendanceDown "Network Error")
                      (SampleUI.typing "25:99") in
  fst result = SampleUI.typing "25:99"
  /\ existsb isNetworkCall (snd result) = false.
Proof.
  destruct (C7_malformed_time_rejected
              Sample.IST (SampleUI.propsFor Sample.IST 2024 2)
              (SampleUI.attendanceDown "Network Error")
              (SampleUI.typing "25:99"))
    as (_ & message & H & Hnet & _).
  - reflexivity.
  - split; [|exact Hnet]. rewrite H. reflexivity.
Defined.

Section SubmitFacts.

Variable tza : Z.

(** With no entry allowed, the submit handler only raises its alert. *)
Lemma handleSubmitEntry_nothing_allowed props net st :
  allowedLogType st = None ->
  handleSubmitEntry tza props net st
  = (st, [Alert "Error" "Please enter a valid time"]).
Proof.
  intros H. unfold handleSubmitEntry. rewrite H.
  by destruct (JsString.truthy _), (selectedDate st), (currentEmployee props).
Qed.

(** A text that matches the pattern goes to the backend, whatever numbers
    it holds. *)
Lemma handleSubmitEntry_sends props net st key e l m :
  JsString.truthy (entryTime st) = true ->
  selectedDate st = Some key ->
  JsString.truthy key = true ->
  currentEmployee props = Some e ->
  allowedLogType st = Some l ->
  matchEntryTime (entryTime st) = Some m ->
  exists st' rest,
    handleSubmitEntry tza props net st
    = (st', CreateDoc "Employee Checkin" (name e)
                      (key +:+ " " +:+ time24Of m +:+ ":00") l :: rest).
Proof.
  intros Ht Hk Hkt He Hl Hm. unfold handleSubmitEntry.
  rewrite Ht, Hk, He, Hl, Hkt, Hm. simpl.
  destruct (createDocResult net).
  - destruct (fetchMonthlyRecords _ _ _ _). eauto.
  - eauto.
Qed.

End SubmitFacts.

(** C8. For a tapped day inside the edit window, [handleDayClick] opens the
    dialog on that date and sets the allowed entry from the day's records:
    IN when the day has neither a check-in nor a check-out (or no data at
    all), OUT when it has a check-in and no check-out, IN when it has a
    check-out and no check-in, and none when it has both. In the last case
    the dialog is read-only: it shows the already-complete notice, neither
    the time field nor the submit button, and the submit handler, were it
    run, would send nothing and change nothing. *)
Theorem C8_allowed_entry_type tza props now day dayData st :
  let key := JsDate.dateKeyOf (JsDate.getFullYear tza (currentMonth props))
                              (JsDate.getMonth tza (currentMonth props)) day in
  let ins := from_option checkIns [] dayData in
  let outs := from_option checkOuts [] dayData in
  isWithinLast7Days tza now key = true ->
  exists st',
    handleDayClick tza props now day dayData st = (st', [])
    /\ showDialog st' = true
    /\ selectedDate st' = Some key
    /\ (ins = [] -> outs = [] -> allowedLogType st' = Some IN)
    /\ (ins <> [] -> outs = [] -> allowedLogType st' = Some OUT)
    /\ (ins = [] -> outs <> [] -> allowedLogType st' = Some IN)
    /\ (ins <> [] -> outs <> [] ->
        allowedLogType st' = None
        /\ renderDialog st'
           = {| dialogVisible := true; dialogTitle := "Attendance Entry";
                alreadyCompleteNotice := true; timeInputShown := false;
                submitButtonShown := false |}
        /\ forall net,
            handleSubmitEntry tza props net st'
            = (st', [Alert "Error" "Please enter a valid time"])).
Proof.
  intros key ins outs Hgate. unfold handleDayClick. fold key. rewrite Hgate.
  simpl. eexists. split; [reflexivity|]. simpl.
  split; [reflexivity|]. split; [reflexivity|].
  unfold allowedEntry. subst ins outs.
  destruct dayData as [d|]; simpl.
  - destruct (checkIns d) as [|i ins], (checkOuts d) as [|o outs]; simpl;
      (split; [done|]); (split; [done|]); (split; [done|]);
      intros Hi Ho; try done.
    split; [reflexivity|]. split; [reflexivity|].
    intros net. by apply handleSubmitEntry_nothing_allowed.
  - split; [done|]. split; [done|]. split; [done|]. done.
Qed.

Lemma C8_witness :
  exists st',
    handleDayClick Sample.IST (SampleUI.propsFor Sample.IST 2024 2)
                   (SampleUI.localHour Sample.IST 2024 2 15 10) 9 None
                   SampleUI.initial = (st', [])
    /\ showDialog st' = true
    /\ allowedLogType st' = Some IN.
Proof.
  destruct (C8_allowed_entry_type
              Sample.IST (SampleUI.propsFor Sample.IST 2024 2)
              (SampleUI.localHour Sample.IST 2024 2 15 10) 9 None
              SampleUI.initial)
    as (st' & Hclick & Hshown & _ & Hin & _).
  - vm_compute. reflexivity.
  - exists st'. split; [exact Hclick|]. split; [exact Hshown|].
    apply Hin; reflexivity.
Defined.

(** C10. The pattern checks the shape of the text only. The texts 13:45 PM
    and 11:99 AM match it; the conversion gives 25:45 and 11:99; and the
    submit handler sends the backend a check-in stamped 2024-03-10 25:45:00,
    respectively 2024-03-10 11:99:00, neither of which is a time of day
    (as a Date text each is invalid). *)
Theorem C10_out_of_range_time_is_sent :
  let props := SampleUI.propsFor Sample.IST 2024 2 in
  matchEntryTime "13:45 PM" = Some ("13", "45", "PM")
  /\ time24Of ("13", "45", "PM") = "25:45"
  /\ JsDate.parse Sample.IST "2024-03-10 25:45:00" = None
  /\ (forall net, exists st' rest,
        handleSubmitEntry Sample.IST props net (SampleUI.typing "13:45 PM")
        = (st', CreateDoc "Employee Checkin" "EMP-001"
                          "2024-03-10 25:45:00" IN :: rest))
  /\ matchEntryTime "11:99 AM" = Some ("11", "99", "AM")
  /\ time24Of ("11", "99", "AM") = "11:99"
  /\ JsDate.parse Sample.IST "2024-03-10 11:99:00" = None
  /\ (forall net, exists st' rest,
        handleSubmitEntry Sample.IST props net (SampleUI.typing "11:99 AM")
        = (st', CreateDoc "Employee Checkin" "EMP-001"
                          "2024-03-10 11:99:00" IN :: rest)).
Proof.
  intros props.
  split; [reflexivity|]. split; [reflexivity|]. split; [reflexivity|].
  split.
  { intros net.
    apply (handleSubmitEntry_sends Sample.IST props net
             (SampleUI.typing "13:45 PM") "2024-03-10" SampleUI.employee IN
             ("13", "45", "PM")); reflexivity. }
  split; [reflexivity|]. split; [reflexivity|]. split; [reflexivity|].
  intros net.
  apply (handleSubmitEntry_sends Sample.IST props net
           (SampleUI.typing "11:99 AM") "2024-03-10" SampleUI.employee IN
           ("11", "99", "AM")); reflexivity.
Qed.

Section GridFacts.

Variable tza : Z.

Lemma WeekDay_range t : 0 <= JsDate.WeekDay t < 7.
Proof. unfold JsDate.WeekDay. apply Z.mod_pos_bound. lia. Qed.

Lemma length_concat_weeks {A} (weeks : list (list A)) :
  Forall (fun week => length week = 7%nat) weeks ->
  length (concat weeks) = (7 * length weeks)%nat.
Proof.
  induction 1 as [|week weeks Hw _ IH]; simpl; [done|].
  rewrite length_app, Hw, IH. lia.
Qed.

(** The loop over the days keeps every stored week at seven cells, never
    lets the current week grow beyond seven, and appends the days in
    order. *)
Lemma pushDay_fold year month processed (ds : list Z) :
  forall weeks currentWeek,
    Forall (fun week => length week = 7%nat) weeks ->
    (length currentWeek <= 7)%nat ->
    exists weeks' currentWeek',
      fold_left (pushDay year month processed) ds (weeks, currentWeek)
      = (weeks', currentWeek')
      /\ Forall (fun week => length week = 7%nat) weeks'
      /\ (length currentWeek' <= 7)%nat
      /\ concat weeks' ++ currentWeek'
         = concat weeks ++ currentWeek
             ++ ((fun d => Some (dayCell year month processed d)) <$> ds)
      /\ (ds <> [] -> currentWeek' <> []).
Proof.
  induction ds as [|d ds IH]; intros weeks cw Hweeks Hcw; simpl.
  - exists weeks, cw. rewrite app_nil_r. done.
  - destruct (Nat.eqb_spec (length cw) 7) as [E|E].
    + destruct (IH (weeks ++ [cw]) [Some (dayCell year month processed d)])
        as (weeks' & cw' & Hfold & Hw' & Hc' & Hcat & Hne).
      { apply Forall_app. split; [done|]. by constructor. }
      { simpl. lia. }
      exists weeks', cw'. split; [done|]. split; [done|]. split; [done|].
      split.
      * rewrite Hcat, concat_app. simpl. rewrite app_nil_r, <- !app_assoc.
        done.
      * intros _. destruct ds as [|d' ds']; [|by apply Hne].
        simpl in Hfold. by injection Hfold as <- <-.
    + destruct (IH weeks (cw ++ [Some (dayCell year month processed d)]))
        as (weeks' & cw' & Hfold & Hw' & Hc' & Hcat & Hne); [done| |].
      { rewrite length_app. simpl. lia. }
      exists weeks', cw'. split; [done|]. split; [done|]. split; [done|].
      split.
      * rewrite Hcat, <- !app_assoc. done.
      * intros _. destruct ds as [|d' ds']; [|by apply Hne].
        simpl in Hfold. injection Hfold as <- <-. by destruct cw.
Qed.

(** The weeks the builder returns, for any number of leading cells below
    seven and any list of days. *)
Lemma layout_facts year month processed (lead : nat) (ds : list Z) weeks cw :
  (lead < 7)%nat ->
  fold_left (pushDay year month processed) ds ([], replicate lead None)
  = (weeks, cw) ->
  let grid := weeks ++ [cw ++ replicate (7 - length cw) None] in
  let trailing := (7 - length cw)%nat in
  concat grid
  = replicate lead None
      ++ ((fun d => Some (dayCell year month processed d)) <$> ds)
      ++ replicate trailing None
  /\ Forall (fun week => length week = 7%nat) grid
  /\ (forall week, head grid = Some week ->
                   take lead week = replicate lead None)
  /\ (ds <> [] -> (trailing < 7)%nat)
  /\ (lead = 6%nat -> length ds = 31%nat ->
      length grid = 6%nat /\ trailing = 5%nat).
Proof.
  intros Hlead Hfold grid trailing.
  destruct (pushDay_fold year month processed ds [] (replicate lead None))
    as (weeks' & cw' & Hfold' & Hweeks & Hcw & Hcat & Hne).
  { constructor. }
  { rewrite length_replicate. lia. }
  rewrite Hfold in Hfold'. injection Hfold' as <- <-.
  change (concat [] ++ ?x) with x in Hcat.
  assert (Hall : Forall (fun week => length week = 7%nat) grid).
  { apply Forall_app. split; [done|]. constructor; [|constructor].
    rewrite length_app, length_replicate. lia. }
  assert (Hconcat : concat grid
            = replicate lead None
                ++ ((fun d => Some (dayCell year month processed d)) <$> ds)
                ++ replicate trailing None).
  { unfold grid. rewrite concat_app. simpl.
    rewrite app_nil_r, app_assoc, Hcat, <- !app_assoc. done. }
  split; [done|]. split; [done|]. split; [|split].
  - intros week Hhead.
    assert (Hlen : length week = 7%nat).
    { unfold grid in Hhead.
      destruct weeks as [|w ws]; simpl in Hhead; injection Hhead as <-.
      - rewrite length_app, length_replicate. lia.
      - by inversion Hweeks. }
    assert (Hpre : exists rest, concat grid = week ++ rest).
    { unfold grid in *.
      destruct weeks as [|w ws]; simpl in Hhead; injection Hhead as <-;
        simpl; eauto. }
    destruct Hpre as [rest Hrest]. rewrite Hconcat in Hrest.
    apply (f_equal (take lead)) in Hrest.
    rewrite take_app_length' in Hrest by (rewrite length_replicate; done).
    rewrite take_app_le in Hrest by lia. done.
  - intros Hdays. specialize (Hne Hdays). unfold trailing.
    destruct cw; [done|]. simpl. lia.
  - intros Hsat Hdim.
    pose proof (length_concat_weeks _ Hall) as Hlen.
    rewrite Hconcat in Hlen.
    rewrite !length_app, !length_replicate, length_fmap, Hdim, Hsat in Hlen.
    assert (Hcw' : cw <> []).
    { apply Hne. intros ->. discriminate Hdim. }
    assert (1 <= length cw)%nat by (destruct cw; [done | simpl; lia]).
    unfold trailing in *. lia.
Qed.

End GridFacts.


(** ** More facts about the Date model *)
Section CalendarFacts.
Import JsDate.

Lemma DayFromYear_mono y y' : y <= y' -> DayFromYear y <= DayFromYear y'.
Proof.
  intros H. unfold DayFromYear. Z.to_euclidean_division_equations; lia.
Qed.

(** The year of a time value is determined by the two first days that
    enclose its day. *)
Lemma YearFromTime_unique t y :
  DayFromYear y <= Day t < DayFromYear (y + 1) -> YearFromTime t = y.
Proof.
  intros H. pose proof (YearFromTime_spec t) as Hs.
  destruct (Z.lt_trichotomy (YearFromTime t) y) as [Hlt|[Heq|Hgt]]; [|done|].
  - pose proof (DayFromYear_mono (YearFromTime t + 1) y ltac:(lia)). lia.
  - pose proof (DayFromYear_mono (y + 1) (YearFromTime t) ltac:(lia)). lia.
Qed.

Lemma Day_MakeDate D tm : 0 <= tm < msPerDay -> Day (MakeDate D tm) = D.
Proof.
  intros H. unfold Day, MakeDate, msPerDay in *.
  Z.to_euclidean_division_equations; lia.
Qed.

Lemma MakeDay_in_year y m d :
  0 <= m <= 11 -> MakeDay y m d = DayFromYear y + monthStart y m + d - 1.
Proof.
  intros H. unfold MakeDay.
  rewrite Z.div_small, Z.mod_small, Z.add_0_r by lia. done.
Qed.

Lemma DaysInYear_cases y : DaysInYear y = 365 \/ DaysInYear y = 366.
Proof.
  unfold DaysInYear.
  repeat match goal with
         | |- context [if ?b then _ else _] => destruct b
         end; auto.
Qed.

(** Year, month and day of the month of the day [MakeDay y m d], for a day
    [d] that exists in month [m]. *)
Lemma civil_of_MakeDay t y m d :
  0 <= m <= 11 -> 1 <= d <= monthLength y m ->
  Day t = MakeDay y m d ->
  YearFromTime t = y /\ MonthFromTime t = m /\ DateFromTime t = d.
Proof.
  intros Hm Hd Ht. rewrite MakeDay_in_year in Ht by done.
  assert (Hy : YearFromTime t = y).
  { apply YearFromTime_unique. rewrite DayFromYear_succ, Ht.
    unfold monthStart, monthLength in *.
    destruct (DaysInYear_cases y) as [E|E]; rewrite E in *; simpl in *;
      assert (Hc : m = 0 \/ m = 1 \/ m = 2 \/ m = 3 \/ m = 4 \/ m = 5 \/ m = 6
                   \/ m = 7 \/ m = 8 \/ m = 9 \/ m = 10 \/ m = 11) by lia;
      repeat (destruct Hc as [-> | Hc]; [simpl in *; lia|]); subst; simpl in *;
      lia. }
  split; [done|].
  unfold DateFromTime, MonthFromTime, InLeapYear, DayWithinYear.
  rewrite Hy, Ht. unfold monthStart, monthLength in *.
  replace (DayFromYear y + _ + d - 1 - DayFromYear y)
    with (match m with
          | 0 => 0 | 1 => 31
          | 2 => 59 + (if DaysInYear y =? 366 then 1 else 0)
          | 3 => 90 + (if DaysInYear y =? 366 then 1 else 0)
          | 4 => 120 + (if DaysInYear y =? 366 then 1 else 0)
          | 5 => 151 + (if DaysInYear y =? 366 then 1 else 0)
          | 6 => 181 + (if DaysInYear y =? 366 then 1 else 0)
          | 7 => 212 + (if DaysInYear y =? 366 then 1 else 0)
          | 8 => 243 + (if DaysInYear y =? 366 then 1 else 0)
          | 9 => 273 + (if DaysInYear y =? 366 then 1 else 0)
          | 10 => 304 + (if DaysInYear y =? 366 then 1 else 0)
          | _ => 334 + (if DaysInYear y =? 366 then 1 else 0)
          end + d - 1) by lia.
  assert (Hc : m = 0 \/ m = 1 \/ m = 2 \/ m = 3 \/ m = 4 \/ m = 5 \/ m = 6
               \/ m = 7 \/ m = 8 \/ m = 9 \/ m = 10 \/ m = 11) by lia.
  destruct (DaysInYear y =? 366);
    repeat (destruct Hc as [-> | Hc];
            [simpl in *;
             repeat match goal with
                    | |- context [if ?a <? ?b then _ else _] =>
                        destruct (Z.ltb_spec a b); try lia
                    end; split; lia|]);
    subst; simpl in *;
    repeat match goal with
           | |- context [if ?a <? ?b then _ else _] =>
               destruct (Z.ltb_spec a b); try lia
           end; split; lia.
Qed.

(** Day 0 of the next month is the last day of the month. *)
Lemma MakeDay_last_day y m :
  0 <= m <= 11 -> MakeDay y (m + 1) 0 = MakeDay y m (monthLength y m).
Proof.
  intros Hm. rewrite (MakeDay_in_year y m) by done.
  destruct (Z.eq_dec m 11) as [->|Hne].
  - unfold MakeDay. change ((11 + 1) / 12) with 1.
    change ((11 + 1) mod 12) with 0. rewrite DayFromYear_succ.
    unfold monthStart, monthLength.
    destruct (DaysInYear_cases y) as [E|E]; rewrite E; simpl; lia.
  - rewrite MakeDay_in_year by lia. unfold monthStart, monthLength.
    assert (Hc : m = 0 \/ m = 1 \/ m = 2 \/ m = 3 \/ m = 4 \/ m = 5 \/ m = 6
                 \/ m = 7 \/ m = 8 \/ m = 9 \/ m = 10) by lia.
    destruct (DaysInYear y =? 366);
      repeat (destruct Hc as [-> | Hc]; [simpl; lia|]); subst; simpl; lia.
Qed.

Lemma monthLength_range y m : 28 <= monthLength y m <= 31.
Proof.
  unfold monthLength. destruct (DaysInYear y =? 366).
  all: repeat match goal with
         | |- context [match ?x with _ => _ end] => destruct x
         end; lia.
Qed.

(** Every time value lies on the day its own year, month and day of the
    month name. *)
Lemma MakeDay_of_civil t :
  MakeDay (YearFromTime t) (MonthFromTime t) (DateFromTime t) = Day t.
Proof.
  pose proof (MonthFromTime_range t) as Hm.
  pose proof (monthStart_DateFromTime t) as Hs.
  rewrite MakeDay_in_year by lia. unfold DayWithinYear in Hs. lia.
Qed.

End CalendarFacts.

(** ** Printing and reading numbers and date keys *)
Section TextFacts.

(** A check that holds on every number of a range, by running it. *)
Lemma forall_range (P : Z -> bool) (lo n : Z) :
  forallb P ((fun i => lo + Z.of_nat i) <$> seq 0 (Z.to_nat n)) = true ->
  forall z, lo <= z < lo + n -> P z = true.
Proof.
  intros H z Hz. rewrite forallb_forall in H. apply H.
  apply list_elem_of_In, list_elem_of_fmap. exists (Z.to_nat (z - lo)).
  split; [lia|]. apply list_elem_of_In, in_seq. lia.
Qed.

(** The same over a range of hundreds, checked as hundreds and units. *)
Lemma forall_hundreds (P : Z -> bool) (lo n : Z) :
  forallb (fun hi =>
             forallb (fun r => P (100 * hi + r))
                     ((fun i => 0 + Z.of_nat i) <$> seq 0 (Z.to_nat 100)))
          ((fun i => lo + Z.of_nat i) <$> seq 0 (Z.to_nat n)) = true ->
  forall z, 100 * lo <= z < 100 * (lo + n) -> P z = true.
Proof.
  intros H z Hz.
  pose proof (forall_range _ lo n H (z / 100)) as Hhi. cbv beta in Hhi.
  assert (Hq : lo <= z / 100 < lo + n)
    by (Z.to_euclidean_division_equations; lia).
  pose proof (forall_range _ 0 100 (Hhi Hq) (z mod 100)) as Hr.
  cbv beta in Hr.
  replace (100 * (z / 100) + z mod 100) with z in Hr
    by (Z.to_euclidean_division_equations; lia).
  apply Hr. Z.to_euclidean_division_equations; lia.
Qed.

Lemma takeDigits_app n : forall acc s v s' rest,
  JsDate.takeDigits n acc s = Some (v, s') ->
  JsDate.takeDigits n acc (s +:+ rest) = Some (v, s' +:+ rest).
Proof.
  induction n as [|n IH]; intros acc s v s' rest H; simpl in *.
  - by injection H as <- <-.
  - destruct s as [|c s]; [done|]. simpl.
    destruct (JsString.isDigit c); [|done]. by apply IH.
Qed.

(** Two-digit printing of 0..99 reads back as the number. *)
Lemma takeDigits_pad2 k rest :
  0 <= k <= 99 ->
  JsDate.takeDigits 2 0 (JsDate.pad 2 k +:+ rest) = Some (k, rest).
Proof.
  intros Hk.
  assert (H : JsDate.takeDigits 2 0 (JsDate.pad 2 k) = Some (k, EmptyString)).
  { pose proof (forall_range
                  (fun k => match JsDate.takeDigits 2 0 (JsDate.pad 2 k) with
                            | Some (v, EmptyString) => v =? k
                            | _ => false
                            end) 0 100) as Hr.
    specialize (Hr ltac:(vm_compute; reflexivity) k ltac:(lia)). cbv beta in Hr.
    destruct (JsDate.takeDigits 2 0 (JsDate.pad 2 k)) as [[v [|c s]]|];
      try done.
    apply Z.eqb_eq in Hr. by subst. }
  by rewrite (takeDigits_app _ _ _ _ _ rest H).
Qed.

(** Years 1000..9999 print as four digits that read back as the year. *)
Lemma takeDigits_year y rest :
  1000 <= y <= 9999 ->
  JsDate.takeDigits 4 0 (JsString.ofInt y +:+ rest) = Some (y, rest).
Proof.
  intros Hy.
  assert (H : JsDate.takeDigits 4 0 (JsString.ofInt y) = Some (y, EmptyString)).
  { pose proof (forall_hundreds
                  (fun y => match JsDate.takeDigits 4 0 (JsString.ofInt y) with
                            | Some (v, EmptyString) => v =? y
                            | _ => false
                            end) 10 90) as Hr.
    specialize (Hr ltac:(vm_compute; reflexivity) y ltac:(lia)). cbv beta in Hr.
    destruct (JsDate.takeDigits 4 0 (JsString.ofInt y)) as [[v [|c s]]|];
      try done.
    apply Z.eqb_eq in Hr. by subst. }
  by rewrite (takeDigits_app _ _ _ _ _ rest H).
Qed.

Lemma append_assoc (a b c : string) : (a +:+ b) +:+ c = a +:+ (b +:+ c).
Proof.
  induction a as [|x a IH]; [done|].
  change (String x ((a +:+ b) +:+ c) = String x (a +:+ (b +:+ c))).
  by rewrite IH.
Qed.

Lemma append_empty_r (s : string) : s +:+ EmptyString = s.
Proof.
  induction s as [|x s IH]; [done|].
  change (String x (s +:+ EmptyString) = String x s). by rewrite IH.
Qed.

Lemma expect_here c x : JsDate.expect c (String c EmptyString +:+ x) = Some x.
Proof.
  change (String c EmptyString +:+ x) with (String c x).
  unfold JsDate.expect. by rewrite Ascii.eqb_refl.
Qed.

Lemma bind_Some {A B} (x : A) (f : A -> option B) : (Some x ≫= f) = f x.
Proof. reflexivity. Qed.

(** A date key, with anything after it, reads back as its three numbers. *)
Lemma parseDateFields_dateKeyOf y m d rest :
  1000 <= y <= 9999 -> 0 <= m <= 11 -> 1 <= d <= 31 ->
  JsDate.parseDateFields (JsDate.dateKeyOf y m d +:+ rest)
  = Some (y, m + 1, d, rest).
Proof.
  intros Hy Hm Hd. unfold JsDate.parseDateFields, JsDate.dateKeyOf.
  assert (H1 : forall r, JsDate.takeDigits 2 0 (JsDate.pad 2 (m + 1) +:+ r)
                         = Some (m + 1, r))
    by (intros r; apply takeDigits_pad2; lia).
  assert (H2 : forall r, JsDate.takeDigits 2 0 (JsDate.pad 2 d +:+ r)
                         = Some (d, r))
    by (intros r; apply takeDigits_pad2; lia).
  generalize dependent (JsDate.pad 2 (m + 1)).
  generalize dependent (JsDate.pad 2 d). intros pd H2 pm H1.
  rewrite !append_assoc, takeDigits_year by done.
  rewrite bind_Some, expect_here, bind_Some, H1, bind_Some, expect_here,
    bind_Some, H2, bind_Some.
  replace ((1 <=? m + 1) && (m + 1 <=? 12) && (1 <=? d) && (d <=? 31))
    with true; [done|].
  symmetry. repeat (apply andb_true_intro; split); apply Z.leb_le; lia.
Qed.

(** [new Date(key)] for a date key: midnight UTC of that date. *)
Lemma parse_dateKeyOf tza y m d :
  1000 <= y <= 9999 -> 0 <= m <= 11 -> 1 <= d <= 31 ->
  JsDate.parse tza (JsDate.dateKeyOf y m d)
  = Some (JsDate.MakeDate (JsDate.MakeDay y m d) 0).
Proof.
  intros Hy Hm Hd. unfold JsDate.parse.
  pose proof (parseDateFields_dateKeyOf y m d EmptyString Hy Hm Hd) as H.
  rewrite append_empty_r in H. rewrite H. simpl. by replace (m + 1 - 1) with m by lia.
Qed.

End TextFacts.

Section IsoKeyFacts.

Lemma beforeFirst_app c (a b : string) :
  JsString.beforeFirst c a = a ->
  JsString.beforeFirst c (a +:+ b) = a +:+ JsString.beforeFirst c b.
Proof.
  induction a as [|x a IH]; [done|]. simpl.
  change (String x a +:+ b) with (String x (a +:+ b)).
  change (String x a +:+ JsString.beforeFirst c b)
    with (String x (a +:+ JsString.beforeFirst c b)).
  simpl. destruct (Ascii.eqb x c); [done|].
  intros H. injection H as H. by rewrite IH.
Qed.

Lemma text_check_range (P : Z -> Prop) (check : Z -> bool) lo n :
  (forall z, check z = true -> P z) ->
  forallb check ((fun i => lo + Z.of_nat i) <$> seq 0 (Z.to_nat n)) = true ->
  forall z, lo <= z < lo + n -> P z.
Proof. intros Hc Hall z Hz. apply Hc. by eapply forall_range. Qed.

(** Two printed digits hold no letter T. *)
Lemma pad2_no_T k :
  0 <= k <= 99 -> JsString.beforeFirst "T" (JsDate.pad 2 k) = JsDate.pad 2 k.
Proof.
  intros Hk.
  apply (text_check_range
           (fun k => JsString.beforeFirst "T" (JsDate.pad 2 k) = JsDate.pad 2 k)
           (fun k => String.eqb (JsString.beforeFirst "T" (JsDate.pad 2 k))
                                (JsDate.pad 2 k)) 0 100);
    [intros z; apply String.eqb_eq | vm_compute; reflexivity | lia].
Qed.

(** Years 1000..9999 need no padding to four digits and hold no T. *)
Lemma year_text y :
  1000 <= y <= 9999 ->
  JsDate.pad 4 y = JsString.ofInt y
  /\ JsString.beforeFirst "T" (JsString.ofInt y) = JsString.ofInt y.
Proof.
  intros Hy.
  pose proof (forall_hundreds
                (fun y => String.eqb (JsDate.pad 4 y) (JsString.ofInt y)
                          && String.eqb
                               (JsString.beforeFirst "T" (JsString.ofInt y))
                               (JsString.ofInt y)) 10 90) as Hr.
  specialize (Hr ltac:(vm_compute; reflexivity) y ltac:(lia)). cbv beta in Hr.
  apply andb_true_iff in Hr as [H1 H2].
  by apply String.eqb_eq in H1, H2.
Qed.

(** [toISOString().split('T')[0]] is the date key of the UTC date. *)
Lemma isoString_date_part t :
  1000 <= JsDate.YearFromTime t <= 9999 ->
  JsString.beforeFirst "T" (JsDate.toISOString t) = utcDateKey t.
Proof.
  intros Hy. unfold JsDate.toISOString, utcDateKey, JsDate.dateKeyOf.
  destruct (year_text _ Hy) as [Hpad HnoT].
  pose proof (MonthFromTime_range t) as Hm.
  pose proof (DateFromTime_range t) as Hd.
  replace ((0 <=? JsDate.YearFromTime t) && (JsDate.YearFromTime t <=? 9999))
    with true
    by (symmetry; apply andb_true_intro; split; apply Z.leb_le; lia).
  cbv zeta. rewrite Hpad.
  pose proof (pad2_no_T (JsDate.MonthFromTime t + 1) ltac:(lia)) as Hpm.
  pose proof (pad2_no_T (JsDate.DateFromTime t) ltac:(lia)) as Hpd.
  generalize dependent (JsDate.pad 2 (JsDate.MonthFromTime t + 1)).
  generalize dependent (JsDate.pad 2 (JsDate.DateFromTime t)).
  generalize dependent (JsString.ofInt (JsDate.YearFromTime t)).
  intros ys _ Hys ds Hds ms Hms.
  rewrite (beforeFirst_app _ ys) by done.
  change ("-" +:+ ?x) with (String "-" x). cbn [JsString.beforeFirst].
  change (Ascii.eqb "-" "T") with false. cbv iota.
  rewrite (beforeFirst_app _ ms) by done.
  change ("-" +:+ ?x) with (String "-" x). cbn [JsString.beforeFirst].
  change (Ascii.eqb "-" "T") with false. cbv iota.
  rewrite (beforeFirst_app _ ds) by done.
  change ("T" +:+ ?x) with (String "T" x). cbn [JsString.beforeFirst].
  change (Ascii.eqb "T" "T") with true. cbv iota.
  by rewrite append_empty_r.
Qed.

End IsoKeyFacts.

(** ** More about the reconciler *)
Section ReconcilerMore.

Variable tza : Z.
Variables wfh od : gset string.

Lemma leaveWord_of_status a s :
  statusOfWord a = Some s ->
  s = on_leave \/ s = half_day \/ s = work_from_home ->
  isLeaveWord a = true.
Proof.
  destruct a as [| |w]; simpl; try done.
  destruct (String.eqb w "on_leave"); [done|].
  destruct (String.eqb w "half_day"); [done|].
  destruct (String.eqb w "work_from_home"); [done|].
  destruct (String.eqb w "present");
    [intros [= <-] [?|[?|?]]; done|].
  destruct (String.eqb w "absent"); [intros [= <-] [?|[?|?]]; done | done].
Qed.

Lemma finalStatus_leave d :
  truthyN (attendanceStatus d) = true ->
  isLeaveWord (attendanceStatus d) = true ->
  finalStatus d = d.
Proof. intros H1 H2. unfold finalStatus. by rewrite H1, H2. Qed.

(** The three passes keep the date and the two flags of an entry. *)
Lemma applyAttendance_tags d r :
  date (applyAttendance d r) = date d
  /\ isWFH (applyAttendance d r) = isWFH d
  /\ isOD (applyAttendance d r) = isOD d.
Proof. unfold applyAttendance. by destruct (statusOfWord _). Qed.

Lemma applyCheckin_tags d r :
  date (applyCheckin d r) = date d
  /\ isWFH (applyCheckin d r) = isWFH d
  /\ isOD (applyCheckin d r) = isOD d.
Proof.
  unfold applyCheckin.
  by destruct (String.eqb (log_type r) "IN"), (String.eqb (log_type r) "OUT").
Qed.

Lemma finalStatus_tags d :
  date (finalStatus d) = date d
  /\ isWFH (finalStatus d) = isWFH d
  /\ isOD (finalStatus d) = isOD d.
Proof.
  unfold finalStatus.
  repeat match goal with |- context [if ?b then _ else _] => destruct b end;
    done.
Qed.

Lemma fold_tags {R} (f : DayData -> R -> DayData) (rs : list R) :
  (forall d r, date (f d r) = date d /\ isWFH (f d r) = isWFH d
               /\ isOD (f d r) = isOD d) ->
  forall d, date (fold_left f rs d) = date d
            /\ isWFH (fold_left f rs d) = isWFH d
            /\ isOD (fold_left f rs d) = isOD d.
Proof.
  intros Hf. induction rs as [|r rs IH]; intros d; simpl; [done|].
  destruct (IH (f d r)) as (H1 & H2 & H3), (Hf d r) as (H4 & H5 & H6).
  by rewrite H1, H2, H3, H4, H5, H6.
Qed.

Lemma filter_keyed_valid {R} (key : R -> option string) (k : string)
    (rs : list R) :
  filter (fun r => key r = Some k) (filter (fun r => is_Some (key r)) rs)
  = filter (fun r => key r = Some k) rs.
Proof.
  induction rs as [|r rs IH]; [done|]. rewrite !filter_cons.
  destruct (decide (is_Some (key r))) as [Hs|Hs].
  - rewrite filter_cons. by rewrite IH.
  - rewrite IH. rewrite decide_False; [done|].
    intros E. apply Hs. by rewrite E.
Qed.

End ReconcilerMore.

(** X1. For a date whose Attendance record (the last one listed for the
    date) says On Leave, Half Day or Work From Home, the resolved status is
    the record's, whatever check-events are filed under the date; the
    events are still collected in the day. *)
Theorem X1_leave_record_is_authoritative tza wfh od records atts k r s :
  last (attendanceOn k atts) = Some r ->
  statusOfWord (normalizeStatus (att_status r)) = Some s ->
  s = on_leave \/ s = half_day \/ s = work_from_home ->
  exists d,
    processAttendanceData tza wfh od records atts !! k = Some d
    /\ status d = s
    /\ checkIns d = insOf (checkinsOn tza k records)
    /\ checkOuts d = outsOf (checkinsOn tza k records).
Proof.
  intros Hlast Hword Hs.
  assert (Hne : attendanceOn k atts <> []).
  { intros E. by rewrite E in Hlast. }
  destruct (day_exists tza wfh od records atts k (or_introl Hne)) as [d Hd].
  exists d. split; [done|].
  destruct (day_facts tza wfh od records atts k d Hd)
    as (d0 & -> & Hi & Ho & Ha & Hst).
  destruct (applyAttendance_fold (attendanceOn k atts) (newDay wfh od k))
    as (_ & _ & _ & Hst').
  rewrite Hlast in Ha, Hst'. simpl in Ha, Hst'. rewrite Hword in Hst'.
  simpl in Hst'. rewrite Hst' in Hst.
  rewrite finalStatus_leave.
  - done.
  - rewrite Ha. by eapply statusOfWord_truthy.
  - rewrite Ha. by eapply leaveWord_of_status.
Qed.

Lemma X1_witness :
  exists d,
    processAttendanceData Sample.IST ∅ ∅ Sample.fullDay
        [Sample.attendance "2024-03-10" "On Leave"] !! "2024-03-10" = Some d
    /\ status d = on_leave.
Proof.
  destruct (X1_leave_record_is_authoritative
              Sample.IST ∅ ∅ Sample.fullDay
              [Sample.attendance "2024-03-10" "On Leave"] "2024-03-10"
              (Sample.attendance "2024-03-10" "On Leave") on_leave)
    as (d & Hd & Hs & _).
  - vm_compute. reflexivity.
  - vm_compute. reflexivity.
  - left. reflexivity.
  - exists d. split; [exact Hd | exact Hs].
Defined.

(** X2. The result has a day for a date key exactly when some Attendance
    record with a date carries that key or some check-event with a usable
    time is filed under it; no other key appears. *)
Theorem X2_days_of_the_result tza wfh od records atts k :
  is_Some (processAttendanceData tza wfh od records atts !! k)
  <-> (exists r, r ∈ atts /\ attendanceKey r = Some k)
      \/ (exists r, r ∈ records /\ checkinDateKey tza r = Some k).
Proof.
  rewrite processAttendanceData_lookup. unfold attendanceOn, checkinsOn.
  split.
  - intros H.
    destruct (filter _ atts) as [|a ats] eqn:Ea.
    + destruct (filter _ records) as [|c cs] eqn:Ec; [by destruct H|].
      right. exists c.
      assert (Hc : c ∈ filter (fun r => checkinDateKey tza r = Some k) records)
        by (rewrite Ec; apply list_elem_of_here).
      by apply list_elem_of_filter in Hc as [? ?].
    + left. exists a.
      assert (Hc : a ∈ filter (fun r => attendanceKey r = Some k) atts)
        by (rewrite Ea; apply list_elem_of_here).
      by apply list_elem_of_filter in Hc as [? ?].
  - intros [(r & Hr & Hk)|(r & Hr & Hk)].
    + assert (Hc : r ∈ filter (fun r => attendanceKey r = Some k) atts)
        by (by apply list_elem_of_filter).
      destruct (filter _ atts); [by apply not_elem_of_nil in Hc|].
      by destruct (filter _ records).
    + assert (Hc : r ∈ filter (fun r => checkinDateKey tza r = Some k) records)
        by (by apply list_elem_of_filter).
      destruct (filter (fun r => checkinDateKey tza r = Some k) records);
        [by apply not_elem_of_nil in Hc|].
      by destruct (filter _ atts).
Qed.

(** X3. Check-events without a usable time (none, empty, or not a date) and
    Attendance records without a date are ignored: the result is the one
    the remaining records give. *)
Theorem X3_unusable_records_are_ignored tza wfh od records atts :
  processAttendanceData tza wfh od records atts
  = processAttendanceData tza wfh od
      (filter (fun r => is_Some (checkinDateKey tza r)) records)
      (filter (fun r => is_Some (attendanceKey r)) atts).
Proof.
  apply map_eq. intros k. rewrite !processAttendanceData_lookup.
  unfold attendanceOn, checkinsOn.
  by rewrite (filter_keyed_valid (checkinDateKey tza)),
    (filter_keyed_valid attendanceKey).
Qed.

(** The date and the flags of a day of the result. *)
Lemma day_tags tza wfh od records atts k d :
  processAttendanceData tza wfh od records atts !! k = Some d ->
  date d = k
  /\ isWFH d = bool_decide (k ∈ wfh)
  /\ isOD d = bool_decide (k ∈ od).
Proof.
  rewrite processAttendanceData_lookup. intros H.
  assert (Hd : d = finalStatus
                     (fold_left applyCheckin (checkinsOn tza k records)
                        (fold_left applyAttendance (attendanceOn k atts)
                                   (newDay wfh od k)))).
  { destruct (attendanceOn k atts), (checkinsOn tza k records); congruence. }
  destruct (finalStatus_tags
              (fold_left applyCheckin (checkinsOn tza k records)
                 (fold_left applyAttendance (attendanceOn k atts)
                            (newDay wfh od k)))) as (F1 & F2 & F3).
  destruct (fold_tags applyCheckin (checkinsOn tza k records) applyCheckin_tags
              (fold_left applyAttendance (attendanceOn k atts)
                         (newDay wfh od k))) as (C1 & C2 & C3).
  destruct (fold_tags applyAttendance (attendanceOn k atts)
              applyAttendance_tags (newDay wfh od k)) as (A1 & A2 & A3).
  subst d. rewrite F1, F2, F3, C1, C2, C3, A1, A2, A3. done.
Qed.


(** X4. Every day of the result is stored under its own date, and its WFH
    and OD flags say whether that date is in the set of WFH dates,
    respectively OD dates, the reconciler was given. *)
Theorem X4_day_is_tagged_with_its_key tza wfh od records atts k d :
  processAttendanceData tza wfh od records atts !! k = Some d ->
  date d = k
  /\ isWFH d = bool_decide (k ∈ wfh)
  /\ isOD d = bool_decide (k ∈ od).
Proof. apply day_tags. Qed.

Lemma X4_witness :
  exists d,
    processAttendanceData Sample.IST {["2024-03-10"]} ∅ Sample.fullDay []
      !! "2024-03-10" = Some d
    /\ date d = "2024-03-10" /\ isWFH d = true /\ isOD d = false.
Proof.
  destruct (day_exists Sample.IST {["2024-03-10"]} ∅ Sample.fullDay []
                       "2024-03-10") as [d E].
  { right. vm_compute. discriminate. }
  exists d. split; [exact E|].
  destruct (X4_day_is_tagged_with_its_key
              Sample.IST {["2024-03-10"]} ∅ Sample.fullDay [] "2024-03-10" d E)
    as (H1 & H2 & H3).
  split; [exact H1|]. split.
  - rewrite H2. apply bool_decide_eq_true_2. by apply elem_of_singleton_2.
  - rewrite H3. apply bool_decide_eq_false_2. apply not_elem_of_empty.
Defined.

Section ReconcilerFlags.

Lemma applyAttendance_sameButFlags d d' r :
  sameButFlags d d' -> sameButFlags (applyAttendance d r) (applyAttendance d' r).
Proof.
  unfold sameButFlags, applyAttendance. intros (H1 & H2 & H3 & H4 & H5).
  destruct (statusOfWord _); simpl; by rewrite ?H1, ?H2, ?H3, ?H4.
Qed.

Lemma applyCheckin_sameButFlags d d' r :
  sameButFlags d d' -> sameButFlags (applyCheckin d r) (applyCheckin d' r).
Proof.
  unfold sameButFlags, applyCheckin. intros (H1 & H2 & H3 & H4 & H5).
  destruct (String.eqb (log_type r) "IN"), (String.eqb (log_type r) "OUT");
    simpl; by rewrite ?H1, ?H2, ?H3, ?H4, ?H5.
Qed.

Lemma finalStatus_sameButFlags d d' :
  sameButFlags d d' -> sameButFlags (finalStatus d) (finalStatus d').
Proof.
  unfold sameButFlags, finalStatus. intros (H1 & H2 & H3 & H4 & H5).
  rewrite H2, H3, H5.
  repeat match goal with |- context [if ?b then _ else _] => destruct b end;
    simpl; by rewrite ?H1, ?H2, ?H3, ?H4, ?H5.
Qed.

Lemma fold_sameButFlags {R} (f : DayData -> R -> DayData) (rs : list R) :
  (forall d d' r, sameButFlags d d' -> sameButFlags (f d r) (f d' r)) ->
  forall d d', sameButFlags d d' ->
               sameButFlags (fold_left f rs d) (fold_left f rs d').
Proof.
  intros Hf. induction rs as [|r rs IH]; intros d d' H; simpl; [done|].
  apply IH. by apply Hf.
Qed.

Lemma applyAttendance_not_incomplete d r :
  status d <> incomplete -> status (applyAttendance d r) <> incomplete.
Proof.
  intros H. rewrite applyAttendance_status.
  destruct (normalizeStatus (att_status r)) as [| |w]; simpl; try done.
  repeat match goal with |- context [if ?b then _ else _] => destruct b end;
    done.
Qed.

Lemma fold_applyAttendance_not_incomplete ats : forall d,
  status d <> incomplete ->
  status (fold_left applyAttendance ats d) <> incomplete.
Proof.
  induction ats as [|r ats IH]; intros d H; simpl; [done|].
  apply IH. by apply applyAttendance_not_incomplete.
Qed.

End ReconcilerFlags.

(** X5. A day is marked incomplete only on the strength of its
    check-events: it has check-ins and no check-out, or check-outs and no
    check-in, or both with fewer check-outs than check-ins. In particular a
    day without check-events is never incomplete. *)
Theorem X5_incomplete_only_from_check_events tza wfh od records atts k d :
  processAttendanceData tza wfh od records atts !! k = Some d ->
  status d = incomplete ->
  (checkIns d <> [] /\ checkOuts d = [])
  \/ (checkIns d = [] /\ checkOuts d <> [])
  \/ (checkIns d <> [] /\ checkOuts d <> []
      /\ (length (checkOuts d) < length (checkIns d))%nat).
Proof.
  intros Hd Hinc.
  destruct (day_facts tza wfh od records atts k d Hd)
    as (d0 & -> & _ & _ & _ & Hst).
  assert (H0 : status d0 <> incomplete).
  { rewrite Hst. by apply fold_applyAttendance_not_incomplete. }
  destruct (finalStatus_fields d0) as (Fi & Fo & _). rewrite Fi, Fo.
  revert Hinc. unfold finalStatus.
  destruct (truthyN (attendanceStatus d0) && isLeaveWord (attendanceStatus d0));
    [done|].
  destruct (checkIns d0) as [|i ins], (checkOuts d0) as [|o outs]; simpl.
  - by destruct (truthyN _).
  - intros _. right. left. done.
  - intros _. left. done.
  - destruct (Nat.leb_spec (length ins) (length outs)); [done|].
    intros _. right. right. split; [done|]. split; [done|]. simpl. lia.
Qed.

Lemma X5_witness :
  exists d,
    processAttendanceData Sample.IST ∅ ∅ Sample.strayCheckin [] !! "2024-03-10"
    = Some d
    /\ checkIns d <> [] /\ checkOuts d = [].
Proof.
  eexists. split; [vm_compute; reflexivity|].
  edestruct (X5_incomplete_only_from_check_events
               Sample.IST ∅ ∅ Sample.strayCheckin [] "2024-03-10")
    as [H|[[H _]|(_ & H & _)]].
  - vm_compute. reflexivity.
  - reflexivity.
  - exact H.
  - discriminate H.
  - exfalso. by apply H.
Defined.

(** X6. The sets of WFH and OD dates only set the two flags of a day: with
    other sets the reconciler returns, for every date key, a day with the
    same date, check-ins, check-outs, resolved status and attendance word,
    and has a day for exactly the same keys. *)
Theorem X6_sets_only_set_the_flags tza wfh od wfh' od' records atts k :
  match processAttendanceData tza wfh od records atts !! k,
        processAttendanceData tza wfh' od' records atts !! k with
  | Some d, Some d' => sameButFlags d d'
  | None, None => True
  | _, _ => False
  end.
Proof.
  rewrite !processAttendanceData_lookup.
  assert (H : sameButFlags
                (finalStatus
                   (fold_left applyCheckin (checkinsOn tza k records)
                      (fold_left applyAttendance (attendanceOn k atts)
                                 (newDay wfh od k))))
                (finalStatus
                   (fold_left applyCheckin (checkinsOn tza k records)
                      (fold_left applyAttendance (attendanceOn k atts)
                                 (newDay wfh' od' k))))).
  { apply finalStatus_sameButFlags.
    apply fold_sameButFlags; [apply applyCheckin_sameButFlags|].
    apply fold_sameButFlags; [apply applyAttendance_sameButFlags|].
    by unfold sameButFlags. }
  by destruct (attendanceOn k atts), (checkinsOn tza k records).
Qed.

Section DateKeyFacts.

(** The date key of a time value depends on its day only. *)
Lemma utcDateKey_day t t' :
  JsDate.Day t = JsDate.Day t' -> utcDateKey t = utcDateKey t'.
Proof.
  intros H.
  unfold utcDateKey, JsDate.DateFromTime, JsDate.MonthFromTime,
    JsDate.InLeapYear, JsDate.DayWithinYear, JsDate.YearFromTime.
  by rewrite H.
Qed.

(** Different days have different date keys (years 1000..9999). *)
Lemma utcDateKey_inj t t' :
  1000 <= JsDate.YearFromTime t <= 9999 ->
  1000 <= JsDate.YearFromTime t' <= 9999 ->
  utcDateKey t = utcDateKey t' -> JsDate.Day t = JsDate.Day t'.
Proof.
  intros Hy Hy' Hk.
  pose proof (MonthFromTime_range t) as Hm.
  pose proof (MonthFromTime_range t') as Hm'.
  pose proof (DateFromTime_range t) as Hd.
  pose proof (DateFromTime_range t') as Hd'.
  assert (Hm1 : 0 <= JsDate.MonthFromTime t <= 11) by lia.
  assert (Hm1' : 0 <= JsDate.MonthFromTime t' <= 11) by lia.
  pose proof (parseDateFields_dateKeyOf _ _ _ EmptyString Hy Hm1 Hd) as P.
  pose proof (parseDateFields_dateKeyOf _ _ _ EmptyString Hy' Hm1' Hd') as P'.
  fold (utcDateKey t) in P. fold (utcDateKey t') in P'.
  rewrite Hk, P' in P. injection P as E1 E2 E3.
  rewrite <- (MakeDay_of_civil t), <- (MakeDay_of_civil t').
  f_equal; lia.
Qed.

End DateKeyFacts.

(** X7. A check-event whose time is a date (with a year from 1000 to 9999)
    is filed under the date key of the UTC calendar date of that instant.
    That key is the event's local date key exactly when the instant falls
    on the same day in UTC and on the host. *)
Theorem X7_checkin_key_is_the_utc_date tza r tm t :
  time r = Some tm ->
  JsDate.parse tza tm = Some t ->
  1000 <= JsDate.YearFromTime t <= 9999 ->
  checkinDateKey tza r = Some (utcDateKey t)
  /\ (1000 <= JsDate.getFullYear tza t <= 9999 ->
      (checkinDateKey tza r = Some (localDateKey tza t)
       <-> JsDate.Day t = JsDate.Day (JsDate.LocalTime tza t))).
Proof.
  intros Htm Hp Hy.
  assert (Hkey : checkinDateKey tza r = Some (utcDateKey t)).
  { unfold checkinDateKey. rewrite Htm.
    destruct tm as [|c tm']; [discriminate Hp|].
    change (negb (JsString.truthy (String c tm'))) with false. cbv iota.
    rewrite Hp. by rewrite isoString_date_part. }
  split; [done|]. intros Hl. rewrite Hkey. split.
  - intros [= E]. by apply utcDateKey_inj.
  - intros E. f_equal. by apply utcDateKey_day.
Qed.

Lemma X7_witness :
  checkinDateKey Sample.IST (Sample.checkin "2024-03-10 02:00:00" "IN")
  = Some (utcDateKey 1710016200000).
Proof.
  apply (X7_checkin_key_is_the_utc_date
           Sample.IST (Sample.checkin "2024-03-10 02:00:00" "IN")
           "2024-03-10 02:00:00" 1710016200000).
  - reflexivity.
  - vm_compute. reflexivity.
  - vm_compute. split; discriminate.
Defined.

(** ** More about the loader *)
Section LoaderMore.

Variable tza : Z.

Lemma localDateKey_unfold t :
  JsDate.dateKeyOf (JsDate.getFullYear tza t) (JsDate.getMonth tza t)
                   (JsDate.getDate tza t)
  = localDateKey tza t.
Proof. reflexivity. Qed.

(** The keys the loop adds: the host's date of the start and of every
    whole day after it up to the end. *)
Lemma expandLoop_elem (n : nat) : forall s e acc k,
  (e - s) / JsDate.msPerDay + 1 <= Z.of_nat n ->
  k ∈ expandLoop tza n s e acc
  <-> k ∈ acc
      \/ exists i, 0 <= i /\ s + i * JsDate.msPerDay <= e
                   /\ k = localDateKey tza (s + i * JsDate.msPerDay).
Proof.
  induction n as [|n IH]; intros s e acc k Hn.
  - assert (e < s).
    { unfold JsDate.msPerDay in Hn. Z.to_euclidean_division_equations; lia. }
    simpl. split; [auto|]. intros [?|(i & Hi & Hle & _)]; [done|].
    unfold JsDate.msPerDay in Hle. lia.
  - rewrite expandLoop_S. destruct (Z.leb_spec s e) as [Hse|Hse].
    + cbv zeta. rewrite setDate_next_day, localDateKey_unfold, IH.
      2:{ unfold JsDate.msPerDay in *.
          Z.to_euclidean_division_equations; lia. }
      rewrite elem_of_union, elem_of_singleton. split.
      * intros [[->|?]|(i & Hi & Hle & ->)].
        -- right. exists 0. rewrite Z.mul_0_l, Z.add_0_r. done.
        -- by left.
        -- right. exists (i + 1). split; [lia|].
           replace (s + (i + 1) * JsDate.msPerDay)
             with (s + JsDate.msPerDay + i * JsDate.msPerDay) by lia.
           done.
      * intros [?|(i & Hi & Hle & ->)]; [by left; right|].
        destruct (Z.eq_dec i 0) as [->|Hne].
        -- left. left. by rewrite Z.mul_0_l, Z.add_0_r.
        -- right. exists (i - 1). split; [lia|].
           replace (s + JsDate.msPerDay + (i - 1) * JsDate.msPerDay)
             with (s + i * JsDate.msPerDay) by lia.
           done.
    + split; [auto|]. intros [?|(i & Hi & Hle & _)]; [done|].
      unfold JsDate.msPerDay in Hle. lia.
Qed.

Lemma expandDates_elem startText endText acc k :
  k ∈ expandDates tza startText endText acc
  <-> k ∈ acc
      \/ exists s e i,
           JsDate.parse tza startText = Some s
           /\ JsDate.parse tza endText = Some e
           /\ 0 <= i /\ s + i * JsDate.msPerDay <= e
           /\ k = localDateKey tza (s + i * JsDate.msPerDay).
Proof.
  unfold expandDates.
  destruct (JsDate.parse tza startText) as [s|],
    (JsDate.parse tza endText) as [e|].
  - rewrite expandLoop_elem by lia. split.
    + intros [?|(i & ? & ? & ?)]; [by left|]. right. by exists s, e, i.
    + intros [?|(s' & e' & i & [= <-] & [= <-] & ? & ? & ?)]; [by left|].
      right. by exists i.
  - split; [auto|]. intros [?|(? & ? & ? & _ & ? & _)]; done.
  - split; [auto|]. intros [?|(? & ? & ? & ? & _)]; done.
  - split; [auto|]. intros [?|(? & ? & ? & ? & _)]; done.
Qed.

Lemma fold_expandDates_elem {A} (startOf endOf : A -> string)
    (apps : list A) : forall acc k,
  k ∈ fold_left (fun acc a => expandDates tza (startOf a) (endOf a) acc) apps acc
  <-> k ∈ acc
      \/ exists a s e i,
           a ∈ apps
           /\ JsDate.parse tza (startOf a) = Some s
           /\ JsDate.parse tza (endOf a) = Some e
           /\ 0 <= i /\ s + i * JsDate.msPerDay <= e
           /\ k = localDateKey tza (s + i * JsDate.msPerDay).
Proof.
  induction apps as [|a apps IH]; intros acc k; simpl.
  - split; [auto|]. intros [?|(a & ? & ? & ? & Ha & _)]; [done|].
    by apply not_elem_of_nil in Ha.
  - rewrite IH, expandDates_elem. split.
    + intros [[?|(s & e & i & ?)]|(a' & s & e & i & Ha & ?)].
      * by left.
      * right. exists a, s, e, i. split; [apply list_elem_of_here | done].
      * right. exists a', s, e, i.
        split; [by apply list_elem_of_further | done].
    + intros [?|(a' & s & e & i & Ha & ?)]; [by left; left|].
      apply elem_of_cons in Ha as [->|Ha].
      * left. right. by exists s, e, i.
      * right. by exists a', s, e, i.
Qed.

End LoaderMore.

(** X8. On a host whose offset from UTC is the same at every instant (the
    host of this model; a host with daylight saving is outside it): after
    a load in which no request is rejected, the stored set of WFH dates
    holds a key exactly when some fetched WFH application has a start and
    an end that are dates and the key is the host's date of the start or of
    a whole number of days after it, not beyond the end; the stored set of
    OD dates likewise, from the fetched OD applications. So an application
    whose end is before its start, or whose start or end is not a date,
    adds nothing. *)
Theorem X8_application_date_sets
    tza props net st employee wfhRecords odRecords k :
  currentEmployee props = Some employee ->
  rejection (checkinList net) = None ->
  rejection (attendanceList net) = None ->
  value (wfhList net) = Some wfhRecords ->
  value (odList net) = Some odRecords ->
  let st' := fst (fetchMonthlyRecords tza props net st) in
  (k ∈ wfhDates st'
   <-> exists a s e i,
         a ∈ wfhRecords
         /\ JsDate.parse tza (wfh_start_date a) = Some s
         /\ JsDate.parse tza (wfh_end_date a) = Some e
         /\ 0 <= i /\ s + i * JsDate.msPerDay <= e
         /\ k = localDateKey tza (s + i * JsDate.msPerDay))
  /\ (k ∈ odDates st'
      <-> exists a s e i,
            a ∈ odRecords
            /\ JsDate.parse tza (od_start_date a) = Some s
            /\ JsDate.parse tza (od_end_date a) = Some e
            /\ 0 <= i /\ s + i * JsDate.msPerDay <= e
            /\ k = localDateKey tza (s + i * JsDate.msPerDay)).
Proof.
  intros He H1 H2 Hw Ho st'.
  assert (H3 : rejection (wfhList net) = None).
  { unfold value, rejection in *. by destruct (outcome (wfhList net)). }
  assert (H4 : rejection (odList net) = None).
  { unfold value, rejection in *. by destruct (outcome (odList net)). }
  destruct (promiseAll_fulfilled net H1 H2 H3 H4)
    as (a & b & c & d & _ & _ & Hc & Hd & Hall).
  rewrite Hw in Hc. injection Hc as <-.
  rewrite Ho in Hd. injection Hd as <-.
  unfold st', fetchMonthlyRecords. rewrite He, Hall. simpl.
  unfold wfhDateSetOf, odDateSetOf.
  rewrite (fold_expandDates_elem tza wfh_start_date wfh_end_date),
    (fold_expandDates_elem tza od_start_date od_end_date).
  split; (split; [intros [H|H]; [by apply not_elem_of_empty in H | done]
                 | by right]).
Qed.

Lemma X8_witness :
  "2024-03-05"
  ∈ wfhDates (fst (fetchMonthlyRecords Sample.IST
                     (SampleUI.propsFor Sample.IST 2024 2)
                     SampleNet.wfhThreeDays SampleUI.initial)).
Proof.
  destruct (X8_application_date_sets
              Sample.IST (SampleUI.propsFor Sample.IST 2024 2)
              SampleNet.wfhThreeDays SampleUI.initial SampleUI.employee
              [ {| wfh_start_date := "2024-03-04";
                   wfh_end_date := "2024-03-06" |} ] [] "2024-03-05")
    as [[_ H] _].
  - reflexivity.
  - reflexivity.
  - reflexivity.
  - reflexivity.
  - reflexivity.
  - apply H.
    exists {| wfh_start_date := "2024-03-04"; wfh_end_date := "2024-03-06" |},
      1709510400000, 1709683200000, 1.
    split; [apply list_elem_of_here|].
    split; [vm_compute; reflexivity|].
    split; [vm_compute; reflexivity|].
    split; [lia|].
    split; [vm_compute; discriminate|].
    vm_compute. reflexivity.
Defined.

(** X9. On a host whose offset from UTC is the same at every instant (the
    host of this model; a host with daylight saving is outside it): for an
    application whose start and end are date keys (years 1000 to 9999), the
    loop adds the date keys of the days from the start's day number to the
    end's, both shifted by the whole days in the host's offset: the dates
    from start to end inclusive on a host at or east of Greenwich (offsets
    from 0 up to a day), the dates from the day before the start to the day
    before the end on a host west of it. *)
Theorem X9_date_only_application
    tza ys ms ds ye me de (acc : gset string) k :
  1000 <= ys <= 9999 -> 0 <= ms <= 11 -> 1 <= ds <= 31 ->
  1000 <= ye <= 9999 -> 0 <= me <= 11 -> 1 <= de <= 31 ->
  k ∈ expandDates tza (JsDate.dateKeyOf ys ms ds) (JsDate.dateKeyOf ye me de) acc
  <-> k ∈ acc
      \/ exists D,
           JsDate.MakeDay ys ms ds + tza / JsDate.msPerDay <= D
           /\ D <= JsDate.MakeDay ye me de + tza / JsDate.msPerDay
           /\ k = dayDateKey D.
Proof.
  intros Hys Hms Hds Hye Hme Hde.
  rewrite expandDates_elem, !parse_dateKeyOf by done.
  set (Ds := JsDate.MakeDay ys ms ds). set (De := JsDate.MakeDay ye me de).
  assert (Hday : forall i,
             JsDate.Day (JsDate.LocalTime tza
                           (JsDate.MakeDate Ds 0 + i * JsDate.msPerDay))
             = Ds + i + tza / JsDate.msPerDay).
  { intros i. unfold JsDate.Day, JsDate.LocalTime, JsDate.MakeDate,
      JsDate.msPerDay. Z.to_euclidean_division_equations; lia. }
  assert (Hkey : forall i,
             localDateKey tza (JsDate.MakeDate Ds 0 + i * JsDate.msPerDay)
             = dayDateKey (Ds + i + tza / JsDate.msPerDay)).
  { intros i. unfold localDateKey, dayDateKey. apply utcDateKey_day.
    rewrite Hday. unfold JsDate.Day.
    rewrite Z.div_mul; [done | discriminate]. }
  split.
  - intros [?|(s & e & i & [= <-] & [= <-] & Hi & Hle & ->)]; [by left|].
    right. exists (Ds + i + tza / JsDate.msPerDay).
    split; [lia|]. split; [|apply Hkey].
    unfold JsDate.MakeDate, JsDate.msPerDay in *. lia.
  - intros [?|(D & H1 & H2 & ->)]; [by left|].
    right. eexists _, _, (D - Ds - tza / JsDate.msPerDay).
    split; [reflexivity|]. split; [reflexivity|]. split; [lia|].
    split.
    + unfold JsDate.MakeDate, JsDate.msPerDay in *. lia.
    + rewrite Hkey. f_equal. lia.
Qed.

Lemma X9_witness :
  "2024-03-05" ∈ expandDates Sample.IST "2024-03-04" "2024-03-06" ∅.
Proof.
  apply (X9_date_only_application Sample.IST 2024 2 4 2024 2 6 ∅ "2024-03-05");
    try lia.
  right. exists (JsDate.MakeDay 2024 2 5).
  split; [|split].
  - vm_compute. discriminate.
  - vm_compute. discriminate.
  - vm_compute. reflexivity.
Defined.



(** ** The displayed month *)
Section MonthFacts.

Variable tza : Z.

Lemma LocalTime_UTC x : JsDate.LocalTime tza (JsDate.UTC tza x) = x.
Proof. unfold JsDate.LocalTime, JsDate.UTC. lia. Qed.

(** The day of the month does not exceed the length of the month. *)
Lemma DateFromTime_le_monthLength t :
  JsDate.DateFromTime t
  <= monthLength (JsDate.YearFromTime t) (JsDate.MonthFromTime t).
Proof.
  pose proof (DayWithinYear_range t) as H.
  unfold JsDate.DateFromTime, JsDate.MonthFromTime, monthLength,
    JsDate.InLeapYear in *.
  generalize dependent (JsDate.DayWithinYear t). intros d.
  destruct (JsDate.DaysInYear (JsDate.YearFromTime t) =? 366); intros H;
    repeat match goal with
           | |- context [if ?a <? ?b then _ else _] => destruct (Z.ltb_spec a b)
           end; simpl; lia.
Qed.

(** The year the Date constructor uses for a year argument. *)
Lemma ofComponents_first y m :
  ~ (0 <= y <= 99) -> 0 <= m <= 11 ->
  let t := JsDate.ofComponents tza y m 1 in
  JsDate.getFullYear tza t = y /\ JsDate.getMonth tza t = m
  /\ JsDate.getDate tza t = 1.
Proof.
  intros Hy Hm t. unfold t, JsDate.ofComponents, JsDate.getFullYear,
    JsDate.getMonth, JsDate.getDate.
  replace ((0 <=? y) && (y <=? 99)) with false.
  2:{ symmetry. apply andb_false_iff.
      destruct (Z.leb_spec 0 y); [right; apply Z.leb_gt; lia | by left]. }
  rewrite LocalTime_UTC.
  apply civil_of_MakeDay; [done | |].
  - pose proof (monthLength_range y m). lia.
  - by apply Day_MakeDate.
Qed.

Lemma ofComponents_last y m :
  ~ (0 <= y <= 99) -> 0 <= m <= 11 ->
  let t := JsDate.ofComponents tza y (m + 1) 0 in
  JsDate.getFullYear tza t = y /\ JsDate.getMonth tza t = m
  /\ JsDate.getDate tza t = monthLength y m.
Proof.
  intros Hy Hm t. unfold t, JsDate.ofComponents, JsDate.getFullYear,
    JsDate.getMonth, JsDate.getDate.
  replace ((0 <=? y) && (y <=? 99)) with false.
  2:{ symmetry. apply andb_false_iff.
      destruct (Z.leb_spec 0 y); [right; apply Z.leb_gt; lia | by left]. }
  rewrite LocalTime_UTC.
  apply civil_of_MakeDay; [done | |].
  - pose proof (monthLength_range y m). lia.
  - rewrite Day_MakeDate by done. by apply MakeDay_last_day.
Qed.

(** Whatever the year, the month the grid lays out has 28 to 31 days. *)
Lemma daysInMonthOf_range y m :
  0 <= m <= 11 -> 28 <= daysInMonthOf tza y m <= 31.
Proof.
  intros Hm. unfold daysInMonthOf, JsDate.getDate, JsDate.ofComponents.
  rewrite LocalTime_UTC.
  set (yr := if (0 <=? y) && (y <=? 99) then 1900 + y else y).
  destruct (civil_of_MakeDay
              (JsDate.MakeDate (JsDate.MakeDay yr (m + 1) 0)
                               (JsDate.MakeTime 0 0 0 0))
              yr m (monthLength yr m)) as (_ & _ & ->).
  - done.
  - pose proof (monthLength_range yr m). lia.
  - rewrite Day_MakeDate by done. by apply MakeDay_last_day.
  - apply monthLength_range.
Qed.

End MonthFacts.

(** X11. For a displayed month outside the years 0 to 99, the range the
    loader asks for starts on day 1 of the displayed month and ends on its
    last day (28 to 31 by the month, 29 for February in leap years), the
    two time bounds are those dates at 00:00:00 and 23:59:59, and the
    displayed date itself lies in the range. *)
Theorem X11_month_date_range tza shown :
  let y := JsDate.getFullYear tza shown in
  let m := JsDate.getMonth tza shown in
  let r := getMonthDateRange tza shown in
  ~ (0 <= y <= 99) ->
  startDate r = JsDate.dateKeyOf y m 1
  /\ endDate r = JsDate.dateKeyOf y m (monthLength y m)
  /\ startTime r = JsDate.dateKeyOf y m 1 +:+ " 00:00:00"
  /\ endTime r = JsDate.dateKeyOf y m (monthLength y m) +:+ " 23:59:59"
  /\ 1 <= JsDate.getDate tza shown <= monthLength y m.
Proof.
  intros y m r Hy.
  assert (Hm : 0 <= m <= 11).
  { pose proof (MonthFromTime_range (JsDate.LocalTime tza shown)).
    unfold m, JsDate.getMonth. lia. }
  destruct (ofComponents_first tza y m Hy Hm) as (F1 & F2 & F3).
  destruct (ofComponents_last tza y m Hy Hm) as (L1 & L2 & L3).
  unfold r, getMonthDateRange. fold y m. simpl.
  rewrite F1, F2, F3, L1, L2, L3.
  split; [done|]. split; [done|]. split; [done|]. split; [done|].
  split.
  - apply DateFromTime_range.
  - apply DateFromTime_le_monthLength.
Qed.

Lemma X11_witness :
  let r := getMonthDateRange Sample.IST
             (SampleUI.localHour Sample.IST 2024 1 10 9) in
  startDate r = "2024-02-01" /\ endDate r = "2024-02-29".
Proof.
  destruct (X11_month_date_range Sample.IST
              (SampleUI.localHour Sample.IST 2024 1 10 9))
    as (H1 & H2 & _).
  - vm_compute. intros [_ H]. by apply H.
  - split; [rewrite H1 | rewrite H2]; vm_compute; reflexivity.
Defined.

Section GridMore.

Lemma omap_replicate_None {A} n : omap id (replicate n (@None A)) = [].
Proof. induction n as [|n IH]; [done|]. simpl. exact IH. Qed.

Lemma omap_Some_fmap {A B} (f : A -> B) (l : list A) :
  omap id ((fun x => Some (f x)) <$> l) = f <$> l.
Proof. induction l as [|x l IH]; [done|]. simpl. f_equal. exact IH. Qed.

(** The grid as the loop leaves it, for the displayed month. *)
Lemma renderCalendarGrid_unfold tza props st weeks cw :
  let year := JsDate.getFullYear tza (currentMonth props) in
  let month := JsDate.getMonth tza (currentMonth props) in
  fold_left (pushDay year month (processedData st))
            (daysOf (daysInMonthOf tza year month))
            ([], replicate (Z.to_nat (startingDayOfWeekOf tza year month)) None)
  = (weeks, cw) ->
  renderCalendarGrid tza props st
  = weeks ++ [cw ++ replicate (7 - length cw) None].
Proof.
  intros year month H. unfold renderCalendarGrid. fold year month.
  by rewrite H.
Qed.

(** Seven cells a row: the row count from the leading blanks, the days
    and the trailing blanks. *)
Lemma rows_arith (n t : nat) (lead dim : Z) :
  0 <= lead < 7 -> 28 <= dim <= 31 -> (t < 7)%nat ->
  (7 * n)%nat = (Z.to_nat lead + Z.to_nat dim + t)%nat ->
  Z.of_nat n = (lead + dim + 6) / 7 /\ 4 <= Z.of_nat n <= 6.
Proof.
  intros Hlead Hdim Ht Hlen.
  split; [|lia].
  Z.to_euclidean_division_equations; lia.
Qed.

Lemma trailing_blanks_lt tza year month processed weeks cw :
  0 <= month <= 11 ->
  fold_left (pushDay year month processed)
            (daysOf (daysInMonthOf tza year month))
            ([], replicate (Z.to_nat (startingDayOfWeekOf tza year month)) None)
  = (weeks, cw) ->
  (7 - length cw < 7)%nat.
Proof.
  intros Hm Hfold.
  pose proof (daysInMonthOf_range tza year month Hm) as Hdim.
  assert (Hlead : 0 <= startingDayOfWeekOf tza year month < 7)
    by apply WeekDay_range.
  destruct (layout_facts year month processed
              (Z.to_nat (startingDayOfWeekOf tza year month))
              (daysOf (daysInMonthOf tza year month)) weeks cw)
    as (Hcat & Hall & _ & Htr & _); [lia | exact Hfold |].
  apply Htr. unfold daysOf.
  destruct (Z.to_nat (daysInMonthOf tza year month)) eqn:E;
    [lia | discriminate].
Qed.

Lemma grid_cell_count tza year month processed weeks cw :
  fold_left (pushDay year month processed)
            (daysOf (daysInMonthOf tza year month))
            ([], replicate (Z.to_nat (startingDayOfWeekOf tza year month)) None)
  = (weeks, cw) ->
  (7 * length (weeks ++ [cw ++ replicate (7 - length cw) None]))%nat
  = (Z.to_nat (startingDayOfWeekOf tza year month)
     + Z.to_nat (daysInMonthOf tza year month) + (7 - length cw))%nat.
Proof.
  intros Hfold.
  assert (Hlead : 0 <= startingDayOfWeekOf tza year month < 7)
    by apply WeekDay_range.
  destruct (layout_facts year month processed
              (Z.to_nat (startingDayOfWeekOf tza year month))
              (daysOf (daysInMonthOf tza year month)) weeks cw)
    as (Hcat & Hall & _ & Htr & _); [lia | exact Hfold |].
  rewrite <- (length_concat_weeks _ Hall), Hcat.
  rewrite !length_app, !length_replicate, length_fmap.
  unfold daysOf. rewrite length_fmap, length_seq.
  apply Nat.add_assoc.
Qed.

(** The number of rows for any year and month index. *)
Lemma rows_of_month tza year month processed weeks cw :
  0 <= month <= 11 ->
  fold_left (pushDay year month processed)
            (daysOf (daysInMonthOf tza year month))
            ([], replicate (Z.to_nat (startingDayOfWeekOf tza year month)) None)
  = (weeks, cw) ->
  Z.of_nat (length (weeks ++ [cw ++ replicate (7 - length cw) None]))
  = (startingDayOfWeekOf tza year month + daysInMonthOf tza year month + 6) / 7
  /\ 4 <= Z.of_nat (length (weeks ++ [cw ++ replicate (7 - length cw) None]))
     <= 6.
Proof.
  intros Hm Hfold.
  apply (rows_arith _ (7 - length cw)).
  - apply WeekDay_range.
  - by apply daysInMonthOf_range.
  - by apply (trailing_blanks_lt tza year month processed weeks).
  - by apply (grid_cell_count tza year month processed).
Qed.

End GridMore.

(** X12. For a displayed month outside the years 0 to 99, the day cells of
    the grid, read row after row, are exactly the days 1 to the length of
    that month in the Gregorian calendar (28 to 31, 29 for February in leap
    years), in order, each with the date key of that day and the processed
    data stored under it. *)
Theorem X12_grid_has_the_days_of_the_month tza props st :
  let year := JsDate.getFullYear tza (currentMonth props) in
  let month := JsDate.getMonth tza (currentMonth props) in
  ~ (0 <= year <= 99) ->
  omap id (concat (renderCalendarGrid tza props st))
  = (fun d => {| day := d; dateKey := JsDate.dateKeyOf year month d;
                 data := processedData st !! JsDate.dateKeyOf year month d |})
      <$> (Z.of_nat <$> seq 1 (Z.to_nat (monthLength year month))).
Proof.
  intros year month Hy.
  assert (Hm : 0 <= month <= 11).
  { pose proof (MonthFromTime_range (JsDate.LocalTime tza (currentMonth props))).
    unfold month, JsDate.getMonth. lia. }
  assert (Hdim : daysInMonthOf tza year month = monthLength year month).
  { by destruct (ofComponents_last tza year month Hy Hm) as (_ & _ & ?). }
  destruct (fold_left (pushDay year month (processedData st))
              (daysOf (daysInMonthOf tza year month))
              ([], replicate (Z.to_nat (startingDayOfWeekOf tza year month)) None))
    as [weeks cw] eqn:Hfold.
  rewrite (renderCalendarGrid_unfold tza props st weeks cw Hfold).
  assert (Hlead : 0 <= startingDayOfWeekOf tza year month < 7)
    by apply WeekDay_range.
  clearbody year month.
  destruct (layout_facts year month (processedData st)
              (Z.to_nat (startingDayOfWeekOf tza year month))
              (daysOf (daysInMonthOf tza year month)) weeks cw)
    as (Hcat & _); [lia | done |].
  rewrite Hcat, !omap_app, !omap_replicate_None, app_nil_r.
  rewrite (omap_Some_fmap (dayCell year month (processedData st))).
  unfold daysOf. by rewrite Hdim.
Qed.

Lemma X12_witness :
  length (omap id (concat (renderCalendarGrid
                             Sample.IST (SampleUI.propsFor Sample.IST 2024 1)
                             SampleUI.initial))) = 29%nat.
Proof.
  rewrite (X12_grid_has_the_days_of_the_month
             Sample.IST (SampleUI.propsFor Sample.IST 2024 1) SampleUI.initial).
  - rewrite !length_fmap, length_seq. vm_compute. reflexivity.
  - vm_compute. intros [_ H]. by apply H.
Defined.

(** X13. Whatever month is displayed, the grid has at least 4 and at most 6
    rows: as many as it takes to hold the leading empty cells and the days
    of the month in rows of seven. *)
Theorem X13_grid_has_four_to_six_rows tza props st :
  let year := JsDate.getFullYear tza (currentMonth props) in
  let month := JsDate.getMonth tza (currentMonth props) in
  let rows := Z.of_nat (length (renderCalendarGrid tza props st)) in
  rows = (startingDayOfWeekOf tza year month + daysInMonthOf tza year month + 6)
         / 7
  /\ 4 <= rows <= 6.
Proof.
  intros year month rows.
  assert (Hm : 0 <= month <= 11).
  { pose proof (MonthFromTime_range (JsDate.LocalTime tza (currentMonth props))).
    unfold month, JsDate.getMonth. lia. }
  destruct (fold_left (pushDay year month (processedData st))
              (daysOf (daysInMonthOf tza year month))
              ([], replicate (Z.to_nat (startingDayOfWeekOf tza year month)) None))
    as [weeks cw] eqn:Hfold.
  unfold rows. rewrite (renderCalendarGrid_unfold tza props st weeks cw Hfold).
  by apply (rows_of_month tza year month (processedData st)).
Qed.

(** ** The grid against the calendar *)

Section GridOfTheMonth.

Variable tza : Z.





End GridOfTheMonth.




(** ** The edit window on the keys the grid makes *)

Section GateMore.

Variable tza : Z.

(** The gate on a date key of the grid: the key is read back as the day it
    was made from, and compared with today's local day; west of Greenwich
    the tapped day counts as one day older. *)
Lemma isWithinLast7Days_dateKeyOf now y m d :
  1000 <= y <= 9999 -> 0 <= m <= 11 -> 1 <= d <= 31 ->
  - JsDate.msPerDay <= tza < JsDate.msPerDay ->
  isWithinLast7Days tza now (JsDate.dateKeyOf y m d)
  = bool_decide (JsDate.Day (JsDate.LocalTime tza now) - 6
                 <= JsDate.MakeDay y m d - (if 0 <=? tza then 0 else 1)
                 <= JsDate.Day (JsDate.LocalTime tza now)).
Proof.
  intros Hy Hm Hd Htza.
  pose proof (parseDateFields_dateKeyOf y m d EmptyString Hy Hm Hd) as Hkey.
  rewrite append_empty_r in Hkey.
  destruct (Z.leb_spec 0 tza) as [Hpos|Hneg].
  - rewrite (isWithinLast7Days_east tza now _ y (m + 1) d) by (done || lia).
    rewrite Z.add_simpl_r. apply bool_decide_ext. lia.
  - rewrite (isWithinLast7Days_west tza now _ y (m + 1) d) by (done || lia).
    rewrite Z.add_simpl_r. apply bool_decide_ext. lia.
Qed.

End GateMore.

(** X14. On a host whose offset from UTC is the same at every instant
    (the host of this model; a host with daylight saving is outside it) and
    lies within a day of UTC: a tap on a day of the displayed month (years
    1000 to 9999) opens the entry dialog exactly when the tapped day,
    counted one day older when the host is west of Greenwich, lies between
    six days ago and today on the host's calendar; the dialog then holds
    the day's key, its data, the current time as text and the entry still
    allowed. Any other tap leaves the state as it is. No effect is produced
    either way. *)
Theorem X14_tap_opens_dialog_inside_window tza props now d dayData st :
  let year := JsDate.getFullYear tza (currentMonth props) in
  let month := JsDate.getMonth tza (currentMonth props) in
  let today := JsDate.Day (JsDate.LocalTime tza now) in
  let tapped := JsDate.MakeDay year month d - (if 0 <=? tza then 0 else 1) in
  1000 <= year <= 9999 ->
  1 <= d <= monthLength year month ->
  - JsDate.msPerDay <= tza < JsDate.msPerDay ->
  handleDayClick tza props now d dayData st
  = if bool_decide (today - 6 <= tapped <= today)
    then (setDialog true (Some (JsDate.dateKeyOf year month d)) dayData
                    (defaultEntryTime tza now) (allowedEntry dayData) st, [])
    else (st, []).
Proof.
  intros year month today tapped Hy Hd Htza.
  assert (Hm : 0 <= month <= 11).
  { pose proof (MonthFromTime_range (JsDate.LocalTime tza (currentMonth props))).
    unfold month, JsDate.getMonth. lia. }
  pose proof (monthLength_range year month) as Hlen.
  unfold handleDayClick. fold year month.
  rewrite (isWithinLast7Days_dateKeyOf tza now year month d) by (done || lia).
  fold today tapped.
  by destruct (bool_decide (today - 6 <= tapped <= today)).
Qed.

Lemma X14_witness :
  showDialog (fst (handleDayClick Sample.EST
                     (SampleUI.propsFor Sample.EST 2024 2)
                     (SampleUI.localHour Sample.EST 2024 2 15 10)
                     16 None SampleUI.initial)) = true
  /\ showDialog (fst (handleDayClick Sample.EST
                        (SampleUI.propsFor Sample.EST 2024 2)
                        (SampleUI.localHour Sample.EST 2024 2 15 10)
                        9 None SampleUI.initial)) = false.
Proof.
  split.
  - rewrite X14_tap_opens_dialog_inside_window.
    + vm_compute. reflexivity.
    + vm_compute. split; discriminate.
    + vm_compute. split; discriminate.
    + vm_compute. split; [discriminate | reflexivity].
  - rewrite X14_tap_opens_dialog_inside_window.
    + vm_compute. reflexivity.
    + vm_compute. split; discriminate.
    + vm_compute. split; discriminate.
    + vm_compute. split; [discriminate | reflexivity].
Defined.

(** ** The entry text, from the tap to the request *)

Section EntryFacts.

Variable tza : Z.

Lemma HourFromTime_range t : 0 <= JsDate.HourFromTime t < 24.
Proof. unfold JsDate.HourFromTime. apply Z.mod_pos_bound. lia. Qed.

Lemma MinFromTime_range t : 0 <= JsDate.MinFromTime t < 60.
Proof. unfold JsDate.MinFromTime. apply Z.mod_pos_bound. lia. Qed.

(** The 12-hour text of a time of day is matched by the pattern and
    converts back to the same time of day, zero padded. *)
Lemma entry_text_round_trip h m :
  0 <= h < 24 -> 0 <= m < 60 ->
  time24Of <$>
    matchEntryTime
      (JsDate.pad 2 (if h mod 12 =? 0 then 12 else h mod 12) +:+ ":"
         +:+ JsDate.pad 2 m +:+ " " +:+ (if 12 <=? h then "PM" else "AM"))
  = Some (JsDate.pad 2 h +:+ ":" +:+ JsDate.pad 2 m).
Proof.
  intros Hh Hm. revert m Hm. revert h Hh.
  pose (text := fun h m =>
          JsDate.pad 2 (if h mod 12 =? 0 then 12 else h mod 12) +:+ ":"
            +:+ JsDate.pad 2 m +:+ " " +:+ (if 12 <=? h then "PM" else "AM")).
  pose (ok := fun h m =>
          match time24Of <$> matchEntryTime (text h m) with
          | Some s => String.eqb s (JsDate.pad 2 h +:+ ":" +:+ JsDate.pad 2 m)
          | None => false
          end).
  assert (Hok : forall h m, ok h m = true ->
                  time24Of <$> matchEntryTime (text h m)
                  = Some (JsDate.pad 2 h +:+ ":" +:+ JsDate.pad 2 m)).
  { intros h m. unfold ok.
    destruct (time24Of <$> matchEntryTime (text h m)) as [s|]; [|done].
    intros H. apply String.eqb_eq in H. by subst. }
  apply (text_check_range
           (fun h => forall m, 0 <= m < 60 ->
              time24Of <$> matchEntryTime (text h m)
              = Some (JsDate.pad 2 h +:+ ":" +:+ JsDate.pad 2 m))
           (fun h => forallb (ok h)
                       ((fun i => 0 + Z.of_nat i) <$> seq 0 (Z.to_nat 60)))
           0 24).
  - intros h Hall.
    apply (text_check_range _ (ok h) 0 60); [apply Hok | exact Hall].
  - vm_compute. reflexivity.
Qed.

Lemma truthy_dateKeyOf y m d : JsString.truthy (JsDate.dateKeyOf y m d) = true.
Proof.
  unfold JsDate.dateKeyOf, JsString.truthy.
  by destruct (JsString.ofInt y).
Qed.

Lemma truthy_defaultEntryTime now :
  JsString.truthy (defaultEntryTime tza now) = true.
Proof.
  unfold defaultEntryTime, JsString.truthy. cbv zeta.
  by destruct (JsDate.pad 2 _).
Qed.

(** The text the dialog starts with is accepted by the submit handler's
    pattern and stands for the current local time. *)
Lemma defaultEntryTime_round_trip now :
  time24Of <$> matchEntryTime (defaultEntryTime tza now)
  = Some (JsDate.pad 2 (JsDate.getHours tza now) +:+ ":"
            +:+ JsDate.pad 2 (JsDate.getMinutes tza now)).
Proof.
  unfold defaultEntryTime. cbv zeta.
  apply entry_text_round_trip.
  - apply HourFromTime_range.
  - apply MinFromTime_range.
Qed.

End EntryFacts.

(** X15. Tapping a day inside the window and submitting the dialog as it
    opens (an employee is signed in and an entry is still allowed) sends one
    Employee Checkin for that employee, of the allowed type, stamped with
    the tapped day's key and the host's current hour and minute, zero
    padded, with seconds 00. *)
Theorem X15_submitting_the_default_text_sends_the_current_time
    tza props net now d dayData st e l :
  let key := JsDate.dateKeyOf (JsDate.getFullYear tza (currentMonth props))
                              (JsDate.getMonth tza (currentMonth props)) d in
  isWithinLast7Days tza now key = true ->
  currentEmployee props = Some e ->
  allowedEntry dayData = Some l ->
  exists st' rest,
    handleSubmitEntry tza props net
      (fst (handleDayClick tza props now d dayData st))
    = (st', CreateDoc "Employee Checkin" (name e)
              (key +:+ " "
                 +:+ (JsDate.pad 2 (JsDate.getHours tza now) +:+ ":"
                        +:+ JsDate.pad 2 (JsDate.getMinutes tza now))
                 +:+ ":00") l :: rest).
Proof.
  intros key Hin He Hl. unfold handleDayClick. fold key. rewrite Hin. simpl.
  pose proof (defaultEntryTime_round_trip tza now) as Hrt.
  destruct (matchEntryTime (defaultEntryTime tza now)) as [m|] eqn:Hm;
    [|discriminate].
  simpl in Hrt. injection Hrt as Hrt. rewrite <- Hrt.
  apply (handleSubmitEntry_sends tza props net _ key e l m).
  - apply truthy_defaultEntryTime.
  - reflexivity.
  - apply truthy_dateKeyOf.
  - exact He.
  - exact Hl.
  - exact Hm.
Qed.

Lemma X15_witness :
  exists st' rest,
    handleSubmitEntry Sample.IST (SampleUI.propsFor Sample.IST 2024 2)
      SampleNet.allUp
      (fst (handleDayClick Sample.IST (SampleUI.propsFor Sample.IST 2024 2)
              (SampleUI.localHour Sample.IST 2024 2 15 10) 15 None
              SampleUI.initial))
    = (st', CreateDoc "Employee Checkin" "EMP-001" "2024-03-15 10:00:00" IN
              :: rest).
Proof.
  apply (X15_submitting_the_default_text_sends_the_current_time
           Sample.IST (SampleUI.propsFor Sample.IST 2024 2) SampleNet.allUp
           (SampleUI.localHour Sample.IST 2024 2 15 10) 15 None
           SampleUI.initial SampleUI.employee IN).
  - vm_compute. reflexivity.
  - reflexivity.
  - reflexivity.
Defined.

Section SubmitMore.

Variable tza : Z.

Lemma fetchMonthlyRecords_no_write props net st :
  List.filter isCreateDoc (snd (fetchMonthlyRecords tza props net st)) = [].
Proof.
  unfold fetchMonthlyRecords.
  destruct (currentEmployee props); [|done].
  destruct (promiseAll net) as [[[[? ?] ?] ?]|?]; done.
Qed.

Lemma fetchMonthlyRecords_effects props net st eff :
  eff ∈ snd (fetchMonthlyRecords tza props net st) -> isCreateDoc eff = false.
Proof.
  intros H.
  pose proof (fetchMonthlyRecords_no_write props net st) as Hf.
  destruct (isCreateDoc eff) eqn:E; [|done].
  assert (Hin : In eff (List.filter isCreateDoc
                          (snd (fetchMonthlyRecords tza props net st)))).
  { apply filter_In. split; [by apply list_elem_of_In | done]. }
  rewrite Hf in Hin. destruct Hin.
Qed.

End SubmitMore.

(** X16. The submit handler never writes more than one record, and it
    writes one only for a complete entry: every CreateDoc it issues is an
    Employee Checkin for the signed-in employee, of the entry type the
    dialog allows, stamped with the selected date and the 24-hour
    conversion of a time text that matches the pattern. *)
Theorem X16_record_written_only_for_a_complete_entry
    tza props net st doctype emp ts l :
  CreateDoc doctype emp ts l ∈ snd (handleSubmitEntry tza props net st) ->
  doctype = "Employee Checkin"
  /\ allowedLogType st = Some l
  /\ (exists e, currentEmployee props = Some e /\ name e = emp)
  /\ (exists key m,
        selectedDate st = Some key /\ key <> ""
        /\ entryTime st <> ""
        /\ matchEntryTime (entryTime st) = Some m
        /\ ts = key +:+ " " +:+ time24Of m +:+ ":00")
  /\ length (List.filter isCreateDoc (snd (handleSubmitEntry tza props net st)))
     = 1%nat.
Proof.
  unfold handleSubmitEntry.
  destruct (JsString.truthy (entryTime st)) eqn:Ht;
    [|intros H; apply list_elem_of_singleton in H; discriminate].
  destruct (selectedDate st) as [key|];
    [|intros H; apply list_elem_of_singleton in H; discriminate].
  destruct (currentEmployee props) as [e|];
    [|intros H; apply list_elem_of_singleton in H; discriminate].
  destruct (allowedLogType st) as [l'|];
    [|intros H; apply list_elem_of_singleton in H; discriminate].
  destruct (JsString.truthy key) eqn:Hk; simpl;
    [|intros H; apply list_elem_of_singleton in H; discriminate].
  destruct (matchEntryTime (entryTime st)) as [m|];
    [|intros H; apply list_elem_of_singleton in H; discriminate].
  assert (Hkey : key <> "").
  { intros ->. discriminate. }
  assert (Htext : entryTime st <> "").
  { intros E. rewrite E in Ht. discriminate. }
  destruct (createDocResult net) as [[]|err].
  - destruct (fetchMonthlyRecords tza props net _) as [st2 effects] eqn:Hf.
    pose proof (fetchMonthlyRecords_no_write tza props net
                  (setDialog false None None "" None (setIsSubmitting true st)))
      as Hnone.
    pose proof (fetchMonthlyRecords_effects tza props net
                  (setDialog false None None "" None (setIsSubmitting true st)))
      as Heff.
    rewrite Hf in Hnone, Heff. simpl in Hnone, Heff. simpl.
    intros H.
    apply elem_of_cons in H as [H|H].
    + injection H as -> -> -> ->.
      split; [done|]. split; [done|]. split; [by exists e|].
      split; [by exists key, m|]. by rewrite Hnone.
    + apply elem_of_cons in H as [H|H]; [discriminate|].
      apply Heff in H. discriminate.
  - simpl. intros H.
    apply elem_of_cons in H as [H|H].
    + injection H as -> -> -> ->.
      split; [done|]. split; [done|]. split; [by exists e|].
      split; [by exists key, m|]. done.
    + apply list_elem_of_singleton in H. discriminate.
Qed.

Lemma X16_witness :
  allowedLogType (SampleUI.typing "09:30 AM") = Some IN
  /\ length (List.filter isCreateDoc
               (snd (handleSubmitEntry Sample.IST
                       (SampleUI.propsFor Sample.IST 2024 2) SampleNet.allUp
                       (SampleUI.typing "09:30 AM")))) = 1%nat.
Proof.
  destruct (X16_record_written_only_for_a_complete_entry
              Sample.IST (SampleUI.propsFor Sample.IST 2024 2) SampleNet.allUp
              (SampleUI.typing "09:30 AM")
              "Employee Checkin" "EMP-001" "2024-03-10 09:30:00" IN)
    as (_ & Hl & _ & _ & Hn).
  - vm_compute. apply list_elem_of_here.
  - split; [exact Hl | exact Hn].
Defined.

(** X17. When the record is written but the reload that follows fails, the
    user is told of the success and then of the failed reload; the dialog
    is closed and its fields are cleared, and the calendar keeps the data
    it had, so the new record is not shown. *)
Theorem X17_written_but_reload_failed tza props net st key e l m err :
  JsString.truthy (entryTime st) = true ->
  selectedDate st = Some key ->
  JsString.truthy key = true ->
  currentEmployee props = Some e ->
  allowedLogType st = Some l ->
  matchEntryTime (entryTime st) = Some m ->
  createDocResult net = Fulfilled () ->
  promiseAll net = Rejected err ->
  handleSubmitEntry tza props net st
  = (setIsSubmitting false (setDialog false None None "" None st),
     [CreateDoc "Employee Checkin" (name e)
                (key +:+ " " +:+ time24Of m +:+ ":00") l;
      Alert "Success" (entryName l true +:+ " record added successfully!")]
     ++ listRequests
     ++ [Alert "Error"
           ("Failed to fetch calendar data: " +:+ errorMessage err)]).
Proof.
  intros Ht Hk Hkt He Hl Hm Hc Hp. unfold handleSubmitEntry.
  rewrite Ht, Hk, He, Hl, Hkt, Hm, Hc. simpl.
  unfold fetchMonthlyRecords. rewrite He, Hp. reflexivity.
Qed.

Lemma X17_witness :
  let st' := fst (handleSubmitEntry Sample.IST
                    (SampleUI.propsFor Sample.IST 2024 2)
                    (SampleUI.attendanceDown "Network Error")
                    (SampleUI.typing "09:30 AM")) in
  showDialog st' = false /\ processedData st' = ∅.
Proof.
  rewrite (X17_written_but_reload_failed
             Sample.IST (SampleUI.propsFor Sample.IST 2024 2)
             (SampleUI.attendanceDown "Network Error")
             (SampleUI.typing "09:30 AM")
             "2024-03-10" SampleUI.employee IN ("09", "30", "AM")
             (ErrorObject "Network Error")).
  - split; reflexivity.
  - reflexivity.
  - reflexivity.
  - reflexivity.
  - reflexivity.
  - reflexivity.
  - reflexivity.
  - reflexivity.
  - reflexivity.
Defined.

(** X18. When the backend refuses the record, nothing is reloaded: the one
    write is followed by one alert that names the entry type and the
    error, and the dialog stays as it was (open, with the text typed), with
    the submitting flag off. *)
Theorem X18_refused_record_keeps_the_dialog tza props net st key e l m err :
  JsString.truthy (entryTime st) = true ->
  selectedDate st = Some key ->
  JsString.truthy key = true ->
  currentEmployee props = Some e ->
  allowedLogType st = Some l ->
  matchEntryTime (entryTime st) = Some m ->
  createDocResult net = Rejected err ->
  handleSubmitEntry tza props net st
  = (setIsSubmitting false st,
     [CreateDoc "Employee Checkin" (name e)
                (key +:+ " " +:+ time24Of m +:+ ":00") l;
      Alert "Error"
        ("Failed to add "
           +:+ match l with IN => "check-in" | OUT => "check-out" end
           +:+ " record: " +:+ errorMessage err)]).
Proof.
  intros Ht Hk Hkt He Hl Hm Hc. unfold handleSubmitEntry.
  rewrite Ht, Hk, He, Hl, Hkt, Hm, Hc. simpl.
  by destruct l.
Qed.

Lemma X18_witness :
  handleSubmitEntry Sample.IST (SampleUI.propsFor Sample.IST 2024 2)
    (SampleNet.writeDown "Duplicate entry") (SampleUI.typing "05:30 PM")
  = (SampleUI.typing "05:30 PM",
     [CreateDoc "Employee Checkin" "EMP-001" "2024-03-10 17:30:00" IN;
      Alert "Error" "Failed to add check-in record: Duplicate entry"]).
Proof.
  rewrite (X18_refused_record_keeps_the_dialog
             Sample.IST (SampleUI.propsFor Sample.IST 2024 2)
             (SampleNet.writeDown "Duplicate entry")
             (SampleUI.typing "05:30 PM")
             "2024-03-10" SampleUI.employee IN ("05", "30", "PM")
             (ErrorObject "Duplicate entry")).
  - reflexivity.
  - reflexivity.
  - reflexivity.
  - reflexivity.
  - reflexivity.
  - reflexivity.
  - reflexivity.
  - reflexivity.
Defined.

(** ** The cell of a reconciled day: [renderDayCell] after the loader *)

Section RenderingFacts.

Variable tza : Z.
Variables wfh od : gset string.

Lemma normalizeStatus_not_null s : isNullN (normalizeStatus s) = false.
Proof. by destruct s. Qed.

(** The day keeps a non-null attendance status exactly when an Attendance
    record was filed under its key. *)
Lemma day_has_attendance_record records atts k d :
  processAttendanceData tza wfh od records atts !! k = Some d ->
  negb (isNullN (attendanceStatus d)) = bool_decide (attendanceOn k atts <> []).
Proof.
  intros H.
  destruct (day_facts tza wfh od records atts k d H)
    as (d0 & -> & _ & _ & Ha & _).
  destruct (finalStatus_fields d0) as (_ & _ & ->). rewrite Ha.
  destruct (last (attendanceOn k atts)) as [r|] eqn:E; simpl.
  - rewrite normalizeStatus_not_null. symmetry.
    apply bool_decide_eq_true_2. intros E'. by rewrite E' in E.
  - apply last_None in E. rewrite E. symmetry.
    apply bool_decide_eq_false_2. intros Hn. by apply Hn.
Qed.

Lemma day_has_events records atts k d :
  processAttendanceData tza wfh od records atts !! k = Some d ->
  (0 <? length (checkIns d))%nat || (0 <? length (checkOuts d))%nat
  = bool_decide (insOf (checkinsOn tza k records) <> []
                 \/ outsOf (checkinsOn tza k records) <> []).
Proof.
  intros H.
  destruct (day_facts tza wfh od records atts k d H)
    as (d0 & -> & Hi & Ho & _ & _).
  destruct (finalStatus_fields d0) as (-> & -> & _). rewrite Hi, Ho.
  destruct (insOf _) as [|i ins]; destruct (outsOf _) as [|o outs].
  - transitivity false; [reflexivity|]. symmetry.
    apply bool_decide_eq_false_2. by intros [?|?].
  - transitivity true; [reflexivity|]. symmetry.
    apply bool_decide_eq_true_2. by right.
  - transitivity true; [reflexivity|]. symmetry.
    apply bool_decide_eq_true_2. by left.
  - transitivity true; [reflexivity|]. symmetry.
    apply bool_decide_eq_true_2. by left.
Qed.

End RenderingFacts.

(** X19. The cell of day [d] on a calendar whose data is the reconciler's
    result for the state's own WFH and OD sets. Its tap passes the day and
    the data stored under the day's key. When data is stored, the
    background is the colour of the day's final status, in the stronger
    shade exactly when an Attendance record and an IN or OUT event were both
    filed under the key, and the badge follows the flags stored in the data
    (W before O before the status letter). When no data is stored, no
    Attendance record and no check event was filed under the key, and the
    background is one of the pale WFH, OD or today tints or the card
    colour. *)
Theorem X19_cell_of_a_reconciled_day
    tza card primary background props st now year month d records atts :
  processedData st
  = processAttendanceData tza (wfhDates st) (odDates st) records atts ->
  let k := JsDate.dateKeyOf year month d in
  let events := checkinsOn tza k records in
  exists v,
    renderDayCell tza card primary background props st now
                  (Some (dayCell year month (processedData st) d))
    = DayCell v
    /\ cellTap v = (d, processedData st !! k)
    /\ match processedData st !! k with
       | Some dayData =>
           cellBackground v
           = getStatusColor (statusWord (status dayData))
               +:+ (if bool_decide (attendanceOn k atts <> [])
                       && bool_decide (insOf events <> [] \/ outsOf events <> [])
                    then "80" else "60")
           /\ cellBadge v
              = (if isWFH dayData then Some ("#2196F3", "W")
                 else if isOD dayData then Some ("#FF9800", "O")
                 else Some (getStatusColor (statusWord (status dayData)),
                            getStatusText (statusWord (status dayData))))
       | None =>
           attendanceOn k atts = [] /\ events = []
           /\ cellBackground v
              ∈ ["#2196F320"; "#FF980020"; primary +:+ "20"; card]
       end.
Proof.
  intros Hst k events.
  unfold renderDayCell, dayCell. fold k. cbv zeta. simpl.
  eexists. split; [reflexivity|]. simpl. split; [reflexivity|].
  destruct (processedData st !! k) as [dayData|] eqn:Hk.
  - rewrite Hst in Hk.
    rewrite (day_has_attendance_record tza _ _ records atts k dayData Hk).
    rewrite (day_has_events tza _ _ records atts k dayData Hk).
    destruct (day_tags tza _ _ records atts k dayData Hk) as (_ & -> & ->).
    split; reflexivity.
  - rewrite Hst, processAttendanceData_lookup in Hk.
    fold events in Hk.
    destruct (attendanceOn k atts) eqn:Ea; destruct events eqn:Ee;
      try discriminate.
    split; [done|]. split; [done|].
    destruct (bool_decide (k ∈ wfhDates st)); [set_solver|].
    destruct (bool_decide (k ∈ odDates st)); [set_solver|].
    match goal with |- context [if ?b then _ else _] => destruct b end;
      set_solver.
Qed.

Lemma X19_witness :
  let st := setFetched Sample.fullDay
              (processAttendanceData Sample.IST ∅ ∅ Sample.fullDay
                 [Sample.attendance "2024-03-10" "Present"])
              ∅ ∅ SampleUI.initial in
  exists v,
    renderDayCell Sample.IST "#FFFFFF" "#6200EE" "#F5F5F5"
                  (SampleUI.propsFor Sample.IST 2024 2) st
                  (SampleUI.localHour Sample.IST 2024 2 15 10)
                  (Some (dayCell 2024 2 (processedData st) 10))
    = DayCell v.
Proof.
  intros st.
  destruct (X19_cell_of_a_reconciled_day
              Sample.IST "#FFFFFF" "#6200EE" "#F5F5F5"
              (SampleUI.propsFor Sample.IST 2024 2) st
              (SampleUI.localHour Sample.IST 2024 2 15 10)
              2024 2 10 Sample.fullDay
              [Sample.attendance "2024-03-10" "Present"])
    as (v & Hv & _).
  - reflexivity.
  - exists v. exact Hv.
Defined.

(** X20. Each of the six statuses a day can have is drawn in a colour and
    with a letter of its own, and none of them falls through to the grey
    default colour or the empty letter. *)
Theorem X20_statuses_are_told_apart (s s' : Status) :
  (getStatusColor (statusWord s) = getStatusColor (statusWord s') -> s = s')
  /\ (getStatusText (statusWord s) = getStatusText (statusWord s') -> s = s')
  /\ getStatusColor (statusWord s) <> "#E0E0E0"
  /\ getStatusText (statusWord s) <> "".
Proof.
  split; [|split; [|split]].
  - destruct s, s'; vm_compute; intros H; try reflexivity; discriminate H.
  - destruct s, s'; vm_compute; intros H; try reflexivity; discriminate H.
  - destruct s; vm_compute; intros H; discriminate H.
  - destruct s; vm_compute; intros H; discriminate H.
Qed.

(** X21. Pull-to-refresh does what the loader does, with the same requests
    and alerts, and always ends with the refreshing flag off, also when the
    load fails or no employee is signed in. *)
Theorem X21_refresh_always_ends tza props net st :
  fst (onRefresh tza props net st)
  = setRefreshing false (fst (fetchMonthlyRecords tza props net st))
  /\ snd (onRefresh tza props net st)
     = snd (fetchMonthlyRecords tza props net st)
  /\ refreshing (fst (onRefresh tza props net st)) = false.
Proof.
  unfold onRefresh, fetchMonthlyRecords.
  destruct (currentEmployee props); [|done].
  destruct (promiseAll net) as [[[[records atts] wfhs] ods]|err]; done.
Qed.
